(** * The blog application: listing, search, similar posts and pagination

    A shallow embedding of [mysite/blog/models.py], [mysite/blog/forms.py],
    [mysite/blog/urls.py], [mysite/blog/views.py] and
    [mysite/blog/templatetags/blog_tags.py].

    Conventions of the embedding:
    - the relational store is a record of tables, each a list of rows in
      table order; a queryset is modelled by the list of rows it
      evaluates to;
    - [ORDER BY] is a merge sort; the order of rows with equal keys is
      left open by SQL, and the theorems below only rely on sortedness;
    - exceptions are an explicit error type ([result]); [try]/[except]
      is a pattern match on the error;
    - the clock ([timezone.now()]) is passed as an argument;
    - date-times are naive (one time zone), compared field by field as
      Python compares them;
    - strings are ASCII. *)

From Stdlib Require Import ZArith QArith String Ascii.
From stdpp Require Import base decidable list sorting gmap sets strings pretty.

Set Warnings "-clear-no-such-hyp".

Local Open Scope string_scope.
Local Open Scope Z_scope.

(** ** Exceptions *)

Inductive exn :=
| Http404 (msg : string)
| ValueError
| OverflowError
| TypeError
| AttributeError
| MultipleObjectsReturned
| PageNotAnInteger
| EmptyPage.

Inductive result (A : Type) :=
| Ok (a : A)
| Raise (e : exn).
Arguments Ok {A} a.
Arguments Raise {A} e.

Global Instance result_ret : MRet result := λ A a, Ok a.

Global Instance result_bind : MBind result := λ A B k r,
  match r with
  | Ok a => k a
  | Raise e => Raise e
  end.

Global Instance result_fmap : FMap result := λ A B f r,
  match r with
  | Ok a => Ok (f a)
  | Raise e => Raise e
  end.

(** ** [datetime.datetime] *)

Record datetime := mk_datetime {
  dt_year : Z;
  dt_month : Z;
  dt_day : Z;
  (* hour, minute, second and microsecond, as microseconds since midnight *)
  dt_time : Z
}.

(** Python compares two naive date-times field by field. *)
Definition datetime_le (a b : datetime) : Prop :=
  dt_year a < dt_year b ∨ (dt_year a = dt_year b ∧
  (dt_month a < dt_month b ∨ (dt_month a = dt_month b ∧
  (dt_day a < dt_day b ∨ (dt_day a = dt_day b ∧ dt_time a ≤ dt_time b))))).

Global Instance datetime_le_dec a b : Decision (datetime_le a b).
Proof. unfold datetime_le. apply _. Defined.

Definition is_leap (y : Z) : bool :=
  (y mod 4 =? 0) && (negb (y mod 100 =? 0) || (y mod 400 =? 0)).

Definition days_in_month (y m : Z) : Z :=
  if m =? 2 then (if is_leap y then 29 else 28)
  else if (m =? 4) || (m =? 6) || (m =? 9) || (m =? 11) then 30
  else 31.

(** The integers the C implementation of [datetime] accepts as arguments. *)
Definition fits_C_int (n : Z) : bool := (- 2 ^ 31 <=? n) && (n <? 2 ^ 31).

(** [datetime.datetime(year, month, day)]: the arguments are read as C
    integers ([OverflowError] otherwise); then the constructor checks
    the year (MINYEAR = 1, MAXYEAR = 9999), the month and the day, and
    raises [ValueError] on the first field out of range. *)
Definition datetime_new (y m d : Z) : result datetime :=
  if negb (fits_C_int y && fits_C_int m && fits_C_int d) then Raise OverflowError
  else if negb ((1 <=? y) && (y <=? 9999)) then Raise ValueError
  else if negb ((1 <=? m) && (m <=? 12)) then Raise ValueError
  else if negb ((1 <=? d) && (d <=? days_in_month y m)) then Raise ValueError
  else Ok (mk_datetime y m d 0).

(** The error of [datetime.datetime(y, m, 1)] when [y] and [m] are not a
    year and a month. *)
Definition date_error (y m : Z) : exn :=
  if fits_C_int y && fits_C_int m then ValueError else OverflowError.

(** ** models.py *)

Record Post := mk_Post {
  id : nat;
  title : string;
  slug : string;
  author : nat;
  body : string;
  publish : datetime
}.

Global Instance datetime_eq_dec : EqDecision datetime.
Proof. solve_decision. Defined.

Global Instance Post_eq_dec : EqDecision Post.
Proof. solve_decision. Defined.

Record Comment := mk_Comment {
  comment_post : nat;
  comment_name : string;
  comment_email : string;
  comment_body : string;
  comment_created : datetime;
  comment_active : bool
}.

(** [taggit.models.Tag] and [taggit.models.TaggedItem] (the content type
    is always [Post] here). *)
Record Tag := mk_Tag {
  Tag_id : nat;
  Tag_name : string;
  Tag_slug : string
}.

Record TaggedItem := mk_TaggedItem {
  object_id : nat;
  tag_id : nat
}.

Global Instance TaggedItem_eq_dec : EqDecision TaggedItem.
Proof. solve_decision. Defined.

Record Database := mk_Database {
  posts : list Post;
  tags : list Tag;
  tagged_items : list TaggedItem;
  comments : list Comment
}.

(** Integrity constraints of the store: [id] is the primary key of the
    post table, and taggit declares (content type, object, tag) unique. *)
Definition db_constraints (db : Database) : Prop :=
  NoDup (id <$> posts db) ∧ NoDup (tagged_items db).

(** *** Orderings *)

(** [Meta.ordering = ("-publish",)] *)
Definition publish_desc (p q : Post) : Prop := datetime_le (publish q) (publish p).

Global Instance publish_desc_dec p q : Decision (publish_desc p q).
Proof. unfold publish_desc. apply _. Defined.

(** [order_by("-same_tags", "-publish")] on rows annotated with [same_tags] *)
Definition same_tags_publish_desc (a b : Post * nat) : Prop :=
  (b.2 < a.2)%nat ∨ (a.2 = b.2 ∧ datetime_le (publish b.1) (publish a.1)).

Global Instance same_tags_publish_desc_dec a b : Decision (same_tags_publish_desc a b).
Proof. unfold same_tags_publish_desc. apply _. Defined.

(** *** PublishedManager *)

(** [PublishedManager.get_queryset]: the rows with [publish <= now], in
    the model's default ordering. *)
Definition PublishedManager_get_queryset (now : datetime) (db : Database) : list Post :=
  merge_sort publish_desc (filter (λ p, datetime_le (publish p) now) (posts db)).

(** *** Query operations used by [Post] *)

(** [self.tags.values_list("id", flat=True)] *)
Definition post_tags_ids (db : Database) (self : Post) : list nat :=
  tag_id <$> filter (λ ti, object_id ti = id self) (tagged_items db).

(** [.filter(tags__in=ids)]: the inner join of the rows with the tagged
    items, one joined row per tagged item whose tag is among [ids]. *)
Definition filter_tags_in (db : Database) (ids : list nat) (qs : list Post) : list Post :=
  p ← qs;
  (λ _, p) <$> filter (λ ti, object_id ti = id p ∧ tag_id ti ∈ ids) (tagged_items db).

(** [.exclude(id=i)] *)
Definition exclude_id (i : nat) (qs : list Post) : list Post :=
  filter (λ p, id p ≠ i) qs.

(** The groups of [GROUP BY id]: one representative per id, the first. *)
Fixpoint group_by_id (rows : list Post) : list Post :=
  match rows with
  | [] => []
  | p :: rows => p :: filter (λ q, id q ≠ id p) (group_by_id rows)
  end.

(** [.annotate(same_tags=Count("tags"))]: the count reuses the join of
    the preceding [filter], so it counts the joined rows of each group. *)
Definition annotate_Count_tags (rows : list Post) : list (Post * nat) :=
  (λ p, (p, length (filter (λ q, id q = id p) rows))) <$> group_by_id rows.

(** [Post.get_similar_posts] *)
Definition get_similar_posts (now : datetime) (db : Database) (self : Post)
    : list (Post * nat) :=
  let post_tags_ids := post_tags_ids db self in
  take 4
    (merge_sort same_tags_publish_desc
      (annotate_Count_tags
        (exclude_id (id self)
          (filter_tags_in db post_tags_ids
            (PublishedManager_get_queryset now db))))).

(** [Comment.Meta.ordering = ("-created",)] *)
Definition created_desc (c d : Comment) : Prop :=
  datetime_le (comment_created d) (comment_created c).

Global Instance created_desc_dec c d : Decision (created_desc c d).
Proof. unfold created_desc. apply _. Defined.

(** [Post.get_active_comments] *)
Definition get_active_comments (db : Database) (self : Post) : list Comment :=
  merge_sort created_desc
    (filter (λ c, comment_post c = id self ∧ comment_active c = true) (comments db)).

(** The tag set of a post. *)
Definition tag_set (db : Database) (p : Post) : gset nat :=
  list_to_set (post_tags_ids db p).

(** ** Python values and functions *)

(** The values passed as a page number: [None], a string or an integer. *)
Inductive pyval :=
| PyNone
| PyStr (s : string)
| PyInt (n : Z).

(** The characters [str.strip()] removes: those for which [str.isspace()]
    holds. *)
Definition is_space (c : ascii) : bool :=
  let n := nat_of_ascii c in
  ((9 <=? n) && (n <=? 13) || (28 <=? n) && (n <=? 32))%nat.

(** The characters [int()] skips around the digits of an ASCII string
    ([Py_ISSPACE]): the separators 28..31 are not among them. *)
Definition Py_ISSPACE (c : ascii) : bool :=
  let n := nat_of_ascii c in
  ((9 <=? n) && (n <=? 13) || (n =? 32))%nat.

Fixpoint lstrip (space : ascii → bool) (s : list ascii) : list ascii :=
  match s with
  | c :: s' => if space c then lstrip space s' else s
  | [] => []
  end.

Definition strip_with (space : ascii → bool) (s : list ascii) : list ascii :=
  reverse (lstrip space (reverse (lstrip space s))).

(** [str.strip()] *)
Definition strip (s : string) : string :=
  string_of_list_ascii (strip_with is_space (list_ascii_of_string s)).

Definition digit_value (c : ascii) : option Z :=
  let n := nat_of_ascii c in
  if ((48 <=? n) && (n <=? 57))%nat then Some (Z.of_nat n - 48) else None.

(** The digits of a decimal literal; a single underscore may separate
    two digits. [prev] tells whether the previous character was a digit. *)
Fixpoint parse_digits (s : list ascii) (acc : Z) (prev : bool) : option Z :=
  match s with
  | [] => if prev then Some acc else None
  | c :: s' =>
      match digit_value c with
      | Some d => parse_digits s' (10 * acc + d) true
      | None =>
          if (nat_of_ascii c =? 95)%nat && prev then parse_digits s' acc false
          else None
      end
  end.

(** [int(s)] for a string, base 10: [None] stands for [ValueError].
    (The Python of the repository's time puts no limit on the number of
    digits.) *)
Definition int_of_str (s : string) : option Z :=
  match strip_with Py_ISSPACE (list_ascii_of_string s) with
  | c :: s' =>
      if (nat_of_ascii c =? 45)%nat then Z.opp <$> parse_digits s' 0 false
      else if (nat_of_ascii c =? 43)%nat then parse_digits s' 0 false
      else parse_digits (c :: s') 0 false
  | [] => None
  end.

(** [int(v)] *)
Definition py_int (v : pyval) : result Z :=
  match v with
  | PyNone => Raise TypeError
  | PyStr s => match int_of_str s with Some n => Ok n | None => Raise ValueError end
  | PyInt n => Ok n
  end.

(** Truth value of an optional integer or string argument ([if year],
    [if tag_slug]): [None], [0] and the empty string are false. *)
Definition truthy_int (v : option Z) : bool :=
  match v with
  | Some n => negb (n =? 0)
  | None => false
  end.

Definition truthy_str (v : option string) : bool :=
  match v with
  | Some s => negb (String.eqb s "")
  | None => false
  end.

(** ** Requests and responses *)

(** [QueryDict]: the key/value pairs in the order they were sent. *)
Definition QueryDict := list (string * string).

(** [key in d] *)
Definition QueryDict_contains (key : string) (d : QueryDict) : bool :=
  bool_decide (key ∈ d.*1).

(** [d.get(key)]: the last value sent for the key. *)
Definition QueryDict_get (key : string) (d : QueryDict) : option string :=
  last (filter (λ kv, kv.1 = key) d).*2.

Record HttpRequest := mk_HttpRequest {
  method : string;
  GET : QueryDict;
  POST : QueryDict;
  HTTP_X_REQUESTED_WITH : option string
}.

(** [request.is_ajax()] *)
Definition is_ajax (request : HttpRequest) : bool :=
  bool_decide (HTTP_X_REQUESTED_WITH request = Some "XMLHttpRequest").

(** [get_object_or_404]: [QuerySet.get] on the matching rows. *)
Definition get_object_or_404 {A} (model : string) (matching : list A) : result A :=
  match matching with
  | [] => Raise (Http404 ("No " ++ model ++ " matches the given query."))
  | [x] => Ok x
  | _ => Raise MultipleObjectsReturned
  end.

(** ** forms.py *)

Definition has_null (s : string) : bool :=
  bool_decide (zero ∈ list_ascii_of_string s).

(** [forms.CharField.clean] with [required=True] and [strip=True]: the
    stripped value, or [None] for a [ValidationError] (empty value, value
    longer than [max_length], null character). *)
Definition CharField_clean (max_length : option nat) (value : option string)
    : option string :=
  let value := strip (default "" value) in
  if String.eqb value "" then None
  else if has_null value then None
  else match max_length with
       | Some n => if (String.length value <=? n)%nat then Some value else None
       | None => Some value
       end.

(** [SearchForm]: unbound ([SearchForm()]) or bound to the request data. *)
Record SearchForm := mk_SearchForm {
  SearchForm_data : option QueryDict
}.

Definition SearchForm_clean (form : SearchForm) : option string :=
  data ← SearchForm_data form;
  CharField_clean None (QueryDict_get "query" data).

Definition SearchForm_is_valid (form : SearchForm) : bool :=
  bool_decide (is_Some (SearchForm_clean form)).

(** [form.cleaned_data["query"]] of a valid form *)
Definition SearchForm_cleaned_query (form : SearchForm) : string :=
  default "" (SearchForm_clean form).

(** [CommentForm]: the data it is bound to, if any, and its [post]. *)
Record CommentForm := mk_CommentForm {
  CommentForm_data : option QueryDict;
  CommentForm_post : option Post
}.

Section forms.
(** [django.core.validators.validate_email] *)
Context (validate_email : string → bool).

(** [forms.EmailField.clean] ([models.EmailField] has [max_length=254]) *)
Definition EmailField_clean (value : option string) : option string :=
  v ← CharField_clean (Some 254%nat) value;
  if validate_email v then Some v else None.

(** The cleaned fields ("name", "email", "body") of a bound form. *)
Definition CommentForm_clean (form : CommentForm) : option (string * string * string) :=
  data ← CommentForm_data form;
  name ← CharField_clean (Some 80%nat) (QueryDict_get "name" data);
  email ← EmailField_clean (QueryDict_get "email" data);
  body ← CharField_clean None (QueryDict_get "body" data);
  Some (name, email, body).

Definition CommentForm_is_valid (form : CommentForm) : bool :=
  bool_decide (is_Some (CommentForm_clean form)).

(** The instance [super().save(commit=False)] returns: built from the
    cleaned data of a bound form; [ValueError] when the form has errors.
    An unbound form has no errors and its instance is left empty. *)
Definition ModelForm_save (form : CommentForm) : result (string * string * string) :=
  match CommentForm_data form with
  | None => Ok ("", "", "")
  | Some _ =>
      match CommentForm_clean form with
      | Some fields => Ok fields
      | None => Raise ValueError
      end
  end.

(** [CommentForm.save]: binds the instance to the form's post
    ([ValueError] when that is not a [Post]) and inserts it. *)
Definition CommentForm_save (now : datetime) (form : CommentForm) (db : Database)
    : result (Database * Comment) :=
  '(name, email, body) ← ModelForm_save form;
  match CommentForm_post form with
  | Some post =>
      let comment := mk_Comment (id post) name email body now true in
      Ok (mk_Database (posts db) (tags db) (tagged_items db) (comment :: comments db),
          comment)
  | None => Raise ValueError
  end.
End forms.

(** ** views.py *)

(** *** [django.core.paginator] *)

Record Paginator := mk_Paginator {
  object_list : list Post;
  per_page : Z
}.

Record Page := mk_Page {
  page_object_list : list Post;
  number : Z;
  paginator : Paginator
}.

Definition count (p : Paginator) : Z := Z.of_nat (length (object_list p)).

(** [Paginator.num_pages] with [orphans=0], [allow_empty_first_page=True]:
    [ceil(max(1, count) / per_page)]. *)
Definition num_pages (p : Paginator) : Z :=
  let hits := Z.max 1 (count p) in
  (hits + per_page p - 1) / per_page p.

(** [Paginator.validate_number] *)
Definition validate_number (p : Paginator) (number : pyval) : result Z :=
  match py_int number with
  | Raise _ => Raise PageNotAnInteger
  | Ok number =>
      if number <? 1 then Raise EmptyPage
      else if (num_pages p <? number) && negb (number =? 1) then Raise EmptyPage
      else Ok number
  end.

(** [object_list[bottom:top]] for [0 <= bottom] *)
Definition slice (l : list Post) (bottom top : Z) : list Post :=
  drop (Z.to_nat bottom) (take (Z.to_nat top) l).

(** [Paginator.page] *)
Definition page (p : Paginator) (number : pyval) : result Page :=
  number ← validate_number p number;
  let bottom := (number - 1) * per_page p in
  let top := bottom + per_page p in
  let top := if count p <=? top then count p else top in
  Ok (mk_Page (slice (object_list p) bottom top) number p).

Definition has_next (pg : Page) : bool := number pg <? num_pages (paginator pg).
Definition has_previous (pg : Page) : bool := 1 <? number pg.

(** *** Responses *)

Record list_context := mk_list_context {
  ctx_tag : option Tag;
  ctx_date : option datetime;
  ctx_posts : Page;
  ctx_query : option string;
  ctx_search_form : SearchForm;
  ctx_total_results : nat
}.

Record detail_context := mk_detail_context {
  ctx_post : Post;
  ctx_comments : list Comment;
  ctx_new_comment : option Comment;
  ctx_detail_search_form : SearchForm;
  ctx_comment_form : CommentForm;
  ctx_similar_posts : list (Post * nat)
}.

Inductive HttpResponse :=
| HttpResponse_content (content : string)
| render_list_ajax (posts : Page)       (* "blog/post/list_ajax.html" *)
| render_list (context : list_context)  (* "blog/post/list.html" *)
| render_detail (context : detail_context). (* "blog/post/detail.html" *)

(** *** Trigram similarity scores *)

Global Instance Qlt_dec (x y : Q) : Decision (x < y)%Q.
Proof. unfold Qlt. apply _. Defined.

Global Instance Qle_dec (x y : Q) : Decision (x <= y)%Q.
Proof. unfold Qle. apply _. Defined.

Section views.
(** [TrigramSimilarity("title", query)]: the score PostgreSQL computes
    for a title and a query, as the rational number it denotes. *)
Context (TrigramSimilarity : string → string → Q).
Context (validate_email : string → bool).

(** [order_by("-similarity")] *)
Definition similarity_desc (query : string) (p q : Post) : Prop :=
  (TrigramSimilarity (title q) query <= TrigramSimilarity (title p) query)%Q.

Global Instance similarity_desc_dec query p q : Decision (similarity_desc query p q).
Proof. unfold similarity_desc. apply _. Defined.

(** *** [post_list] *)

(** Lines 17-28: the published posts, filtered by year and month or
    else by tag; with the [date] and the [tag] of the context. *)
Definition base_filter (now : datetime) (db : Database)
    (tag_slug : option string) (year month : option Z)
    : result (list Post * option datetime * option Tag) :=
  let posts := PublishedManager_get_queryset now db in
  if truthy_int year && truthy_int month then
    date ← datetime_new (default 0 year) (default 0 month) 1;
    Ok (filter (λ p, dt_year (publish p) = dt_year date ∧
                     dt_month (publish p) = dt_month date) posts,
        Some date, None)
  else if truthy_str tag_slug then
    tag ← get_object_or_404 "Tag"
             (filter (λ t, Tag_slug t = default "" tag_slug) (tags db));
    Ok (filter_tags_in db [Tag_id tag] posts, None, Some tag)
  else Ok (posts, None, None).

(** Lines 37-41: the similarity ranker,
    [annotate(similarity=...).filter(similarity__gt=0.1).order_by("-similarity")]. *)
Definition similarity_ranker (query : string) (posts : list Post) : list Post :=
  merge_sort (similarity_desc query)
    (filter (λ p, (1 # 10 < TrigramSimilarity (title p) query)%Q) posts).

(** Lines 30-43: the search; with the [query] and the [search_form] of
    the context. *)
Definition query_filter (request : HttpRequest) (posts : list Post)
    : result (list Post * option string * SearchForm) :=
  if QueryDict_contains "query" (GET request) then
    let search_form := mk_SearchForm (Some (GET request)) in
    if SearchForm_is_valid search_form then
      let query := SearchForm_cleaned_query search_form in
      Ok (similarity_ranker query posts, Some query, search_form)
    else Raise (Http404 "Invalid search")
  else Ok (posts, None, mk_SearchForm None).

(** Lines 47-57: pagination; [inl] is the early [return HttpResponse("")]. *)
Definition paginate (request : HttpRequest) (posts : list Post)
    : result (HttpResponse + Page) :=
  let paginator := mk_Paginator posts 4 in
  let page_token :=
    match QueryDict_get "page" (GET request) with
    | Some s => PyStr s
    | None => PyNone
    end in
  match page paginator page_token with
  | Ok posts => Ok (inr posts)
  | Raise PageNotAnInteger => inr <$> page paginator (PyInt 1)
  | Raise EmptyPage =>
      if is_ajax request then Ok (inl (HttpResponse_content ""))
      else inr <$> page paginator (PyInt (num_pages paginator))
  | Raise e => Raise e
  end.

Definition post_list (now : datetime) (db : Database) (request : HttpRequest)
    (tag_slug : option string) (year month : option Z) : result HttpResponse :=
  '(posts, date, tag) ← base_filter now db tag_slug year month;
  '(posts, query, search_form) ← query_filter request posts;
  let total_results := length posts in
  paged ← paginate request posts;
  match paged with
  | inl response => Ok response
  | inr posts =>
      if is_ajax request then Ok (render_list_ajax posts)
      else Ok (render_list
                 (mk_list_context tag date posts query search_form total_results))
  end.

(** *** [post_detail] *)

(** What a call of [post_detail] leaves behind: the store, the messages
    added to the request, and the response or the exception. *)
Record outcome := mk_outcome {
  out_db : Database;
  out_messages : list string;
  out_response : result HttpResponse
}.

(** [obj.save()] on the value of a variable that holds a comment or
    [None]: [None] has no attribute [save]. *)
Definition call_save (obj : option Comment) (db : Database) : result Database :=
  match obj with
  | None => Raise AttributeError
  | Some comment =>
      Ok (mk_Database (posts db) (tags db) (tagged_items db) (comment :: comments db))
  end.

(** The bounds a [publish__year=year] lookup compares with: the first
    and the last moment of the year. They are built with
    [datetime.datetime], which fails for a number that is not a year. *)
Definition year_lookup_bounds (year : Z) : result (datetime * datetime) :=
  first ← datetime_new year 1 1;
  Ok (first, mk_datetime year 12 31 86399999999).

(** The lookup of lines 85-92, on the default manager [Post.objects]:
    the query is built, with the bounds of the year, and [get] is run
    on the rows it selects. *)
Definition detail_lookup (now : datetime) (db : Database)
    (year month day : Z) (post : string) : result Post :=
  _ ← year_lookup_bounds year;
  get_object_or_404 "Post"
    (filter (λ p, slug p = post ∧ datetime_le (publish p) now ∧
                  dt_year (publish p) = year ∧ dt_month (publish p) = month ∧
                  dt_day (publish p) = day)
       (posts db)).

(** [now] is the clock at the lookup, [now'] the clock when the
    similar posts are queried. The [redirect(...)] of line 83 is
    computed and dropped: it has no effect. *)
Definition post_detail (now now' : datetime) (db : Database) (request : HttpRequest)
    (year month day : Z) (post : string) : outcome :=
  match detail_lookup now db year month day post with
  | Raise e => mk_outcome db [] (Raise e)
  | Ok post =>
      let similar_posts := get_similar_posts now' db post in
      let comments := get_active_comments db post in
      let new_comment : option Comment := None in
      let respond db messages comment_form :=
        mk_outcome db messages
          (Ok (render_detail
                 (mk_detail_context post comments new_comment (mk_SearchForm None)
                    comment_form similar_posts))) in
      if String.eqb (method request) "POST" then
        let comment_form := mk_CommentForm (Some (POST request)) (Some post) in
        if CommentForm_is_valid validate_email comment_form then
          match call_save new_comment db with
          | Raise e => mk_outcome db [] (Raise e)
          | Ok db' =>
              respond db'
                ["Your comment has been successfully added to this post."]
                comment_form
          end
        else respond db [] comment_form
      else respond db [] (mk_CommentForm None None)
  end.
End views.

(** ** urls.py *)

(** The [int] converter: one or more decimal digits, read by [int()]. *)
Definition IntConverter (s : string) : option Z :=
  let cs := list_ascii_of_string s in
  if bool_decide (cs ≠ [] ∧ Forall (λ c, is_Some (digit_value c)) cs)
  then int_of_str s else None.

Definition is_slug_char (c : ascii) : bool :=
  let n := nat_of_ascii c in
  ((n =? 45) || (n =? 95) || (48 <=? n) && (n <=? 57) ||
   (65 <=? n) && (n <=? 90) || (97 <=? n) && (n <=? 122))%nat.

(** The [slug] converter: one or more of [-a-zA-Z0-9_]. *)
Definition SlugConverter (s : string) : option string :=
  let cs := list_ascii_of_string s in
  if bool_decide (cs ≠ [] ∧ Forall (λ c, is_slug_char c = true) cs)
  then Some s else None.

(** The view a path is routed to, with its keyword arguments. *)
Inductive view_call :=
| call_post_list (tag_slug : option string) (year month : option Z)
| call_post_detail (year month day : Z) (post : string).

(** [urlpatterns], on the segments of the path between the slashes;
    [None] when no pattern matches. *)
Definition urlpatterns (path : list string) : option view_call :=
  match path with
  | [] => Some (call_post_list None None None)
  | [a; b] =>
      if String.eqb a "tag" then
        tag_slug ← SlugConverter b; Some (call_post_list (Some tag_slug) None None)
      else None
  | [a; y; m] =>
      if String.eqb a "archive" then
        year ← IntConverter y; month ← IntConverter m;
        Some (call_post_list None (Some year) (Some month))
      else None
  | [y; m; d; s] =>
      year ← IntConverter y; month ← IntConverter m; day ← IntConverter d;
      post ← SlugConverter s;
      Some (call_post_detail year month day post)
  | _ => None
  end.

(** ** Reading results *)

(** The posts a response shows. *)
Definition response_posts (response : HttpResponse) : list Post :=
  match response with
  | HttpResponse_content _ => []
  | render_list_ajax posts => page_object_list posts
  | render_list context => page_object_list (ctx_posts context)
  | render_detail context => ctx_post context :: (ctx_similar_posts context).*1
  end.

(** Page [n] (from 1) of a sequence cut into pages of 4: its items, and
    the page object the paginator builds for it. *)
Definition page_items (posts : list Post) (n : Z) : list Post :=
  take 4 (drop (4 * (Z.to_nat n - 1)) posts).

Definition nth_page (posts : list Post) (n : Z) : Page :=
  mk_Page (page_items posts n) n (mk_Paginator posts 4).

(** ** Sample data, after [tests.py] *)

Definition sample_now : datetime := mk_datetime 2020 10 5 0.

Definition sample_post : Post :=
  mk_Post 1 "Post" "post" 1 "" (mk_datetime 2020 9 5 0).
Definition similar_post : Post :=
  mk_Post 2 "Similar Post" "similar-post" 1 "" (mk_datetime 2020 9 4 0).
Definition more_similar_post : Post :=
  mk_Post 3 "More Similar Post" "more-similar-post" 1 "" (mk_datetime 2020 9 3 0).
Definition some_post : Post :=
  mk_Post 4 "Some Post" "some-post" 1 "" (mk_datetime 2020 8 1 0).
Definition march_post : Post :=
  mk_Post 5 "March Post" "march-post" 1 "" (mk_datetime 2020 3 10 0).
Definition future_post : Post :=
  mk_Post 6 "Future Post" "future-post" 1 "" (mk_datetime 2020 11 4 0).

Definition foo : Tag := mk_Tag 1 "foo" "foo".
Definition bar : Tag := mk_Tag 2 "bar" "bar".

Definition sample_db : Database :=
  mk_Database
    [sample_post; similar_post; more_similar_post; some_post; march_post; future_post]
    [foo; bar]
    [mk_TaggedItem 1 1; mk_TaggedItem 1 2; mk_TaggedItem 2 1;
     mk_TaggedItem 3 1; mk_TaggedItem 3 2; mk_TaggedItem 5 2;
     mk_TaggedItem 6 1; mk_TaggedItem 6 2]
    [].

(** A stand-in for the trigram score. *)
Definition sample_similarity (title query : string) : Q :=
  if String.eqb title "Some Post" then 1 # 2
  else if String.eqb title "March Post" then 1 # 10
  else 0.

Definition sample_validate_email (s : string) : bool :=
  String.eqb s "yourusername@example.com".

Definition get_request (data : QueryDict) : HttpRequest :=
  mk_HttpRequest "GET" data [] None.

Definition ajax_request (data : QueryDict) : HttpRequest :=
  mk_HttpRequest "GET" data [] (Some "XMLHttpRequest").

Definition post_request (data : QueryDict) : HttpRequest :=
  mk_HttpRequest "POST" [] data None.

(** ** The rest of models.py, and templatetags/blog_tags.py *)

(** [str(n)] of an integer: its decimal digits, after a minus sign when
    it is negative. *)
Definition py_str (n : Z) : string := pretty n.

(** What the pattern of the [int] converter, [[0-9]+], matches. *)
Definition matches_int (s : string) : bool :=
  let cs := list_ascii_of_string s in
  bool_decide (cs ≠ [] ∧ Forall (λ c, is_Some (digit_value c)) cs).

(** What the pattern of the [slug] converter, [[-a-zA-Z0-9_]+], matches. *)
Definition matches_slug (s : string) : bool :=
  let cs := list_ascii_of_string s in
  bool_decide (cs ≠ [] ∧ Forall (λ c, is_slug_char c = true) cs).

(** [reverse("blog:post_detail", args=[year, month, day, post])]: the
    segments of the path. Each argument is written with [str()] and has
    to match the pattern of its converter; [None] stands for
    [NoReverseMatch]. *)
Definition reverse_post_detail (year month day : Z) (post : string)
    : option (list string) :=
  if matches_int (py_str year) && matches_int (py_str month) &&
     matches_int (py_str day) && matches_slug post
  then Some [py_str year; py_str month; py_str day; post]
  else None.

(** [Post.get_absolute_url] *)
Definition get_absolute_url (self : Post) : option (list string) :=
  reverse_post_detail (dt_year (publish self)) (dt_month (publish self))
    (dt_day (publish self)) (slug self).

(** [show_latest_posts(count)]: [Post.published.order_by("-publish")[:count]].
    [None] stands for an error: the one Django raises on a negative
    bound, and the one the database raises on a [LIMIT] that is not a
    64-bit integer. *)
Definition show_latest_posts (now : datetime) (db : Database) (count : Z)
    : option (list Post) :=
  if count <? 0 then None
  else if 2 ^ 63 <=? count then None
  else Some (take (Z.to_nat count)
               (merge_sort publish_desc (PublishedManager_get_queryset now db))).

(** [datetime.date] *)
Record date := mk_date {
  d_year : Z;
  d_month : Z;
  d_day : Z
}.

Global Instance date_eq_dec : EqDecision date.
Proof. solve_decision. Defined.

(** The first day of the month of a date-time ([DATE_TRUNC('month', _)]). *)
Definition trunc_month (d : datetime) : date :=
  mk_date (dt_year d) (dt_month d) 1.

(** Later dates first ([order="DESC"]). *)
Definition date_desc (a b : date) : Prop :=
  d_year b < d_year a ∨ (d_year b = d_year a ∧
  (d_month b < d_month a ∨ (d_month b = d_month a ∧ d_day b ≤ d_day a))).

Global Instance date_desc_dec a b : Decision (date_desc a b).
Proof. unfold date_desc. apply _. Defined.

(** [show_archives()]: [Post.published.dates("publish", "month", order="DESC")],
    the distinct months of the published posts. *)
Definition show_archives (now : datetime) (db : Database) : list date :=
  merge_sort date_desc
    (remove_dups ((λ p, trunc_month (publish p)) <$>
                    PublishedManager_get_queryset now db)).

(** Closes a decidable goal about concrete data by evaluation. *)
Ltac by_evaluation :=
  match goal with
  | |- ?P => apply (bool_decide_unpack P); vm_compute; exact I
  end.

(** * Facts about the orderings and the query operations *)

Lemma filter_nil_Forall {A} (P : A → Prop) `{!∀ x, Decision (P x)} (l : list A) :
  filter P l = [] ↔ Forall (λ x, ¬ P x) l.
Proof.
  induction l as [|x l IH]; [by rewrite Forall_nil|].
  rewrite filter_cons, Forall_cons. case_decide; [|tauto].
  split; [done|]. tauto.
Qed.

Lemma filter_unique {A} (P : A → Prop) `{!∀ x, Decision (P x)} (l : list A) x :
  NoDup l → x ∈ l → P x → (∀ y, y ∈ l → P y → y = x) → filter P l = [x].
Proof.
  intros Hnd Hx HP Huniq. induction l as [|y l IH]; [by apply elem_of_nil in Hx|].
  apply NoDup_cons in Hnd as [Hy Hnd]. rewrite filter_cons.
  apply elem_of_cons in Hx as [->|Hx].
  - rewrite decide_True by done. f_equal. apply filter_nil_Forall, Forall_forall.
    intros z Hz HPz. apply Hy. rewrite <- (Huniq z); [done|by right|done].
  - rewrite decide_False.
    + apply IH; [done..|]. intros z Hz. apply Huniq. by right.
    + intros HPy. apply Hy. rewrite (Huniq y); [done|by left|done].
Qed.

Global Instance datetime_le_total : Total datetime_le.
Proof. intros a b. unfold datetime_le. lia. Qed.

Global Instance datetime_le_trans : Transitive datetime_le.
Proof. intros a b c. unfold datetime_le. lia. Qed.

Global Instance publish_desc_total : Total publish_desc.
Proof. intros p q. unfold publish_desc. destruct (total datetime_le (publish p) (publish q)); auto. Qed.

Global Instance publish_desc_trans : Transitive publish_desc.
Proof. intros p q r Hpq Hqr. unfold publish_desc in *. by etrans. Qed.

Global Instance same_tags_publish_desc_total : Total same_tags_publish_desc.
Proof. intros [p n] [q m]. unfold same_tags_publish_desc, datetime_le. simpl. lia. Qed.

Global Instance same_tags_publish_desc_trans : Transitive same_tags_publish_desc.
Proof.
  intros [p n] [q m] [r k]. unfold same_tags_publish_desc, datetime_le. simpl. lia.
Qed.

Section queries.
Context (now : datetime) (db : Database).

Lemma elem_of_published p :
  p ∈ PublishedManager_get_queryset now db ↔
  p ∈ posts db ∧ datetime_le (publish p) now.
Proof.
  unfold PublishedManager_get_queryset.
  rewrite merge_sort_Permutation, list_elem_of_filter. tauto.
Qed.


Lemma elem_of_filter_tags_in ids qs p :
  p ∈ filter_tags_in db ids qs ↔
  p ∈ qs ∧ ∃ ti, ti ∈ tagged_items db ∧ object_id ti = id p ∧ tag_id ti ∈ ids.
Proof.
  unfold filter_tags_in. rewrite list_elem_of_bind. split.
  - intros (q & (ti & -> & Hti)%list_elem_of_fmap & Hq).
    apply list_elem_of_filter in Hti as [[? ?] ?]. eauto 10.
  - intros (Hp & ti & Hti & Hobj & Htag). exists p. split; [|done].
    apply list_elem_of_fmap. exists ti. split; [done|].
    apply list_elem_of_filter. auto.
Qed.

Lemma elem_of_group_by_id rows p : p ∈ group_by_id rows → p ∈ rows.
Proof.
  induction rows as [|q rows IH]; simpl; [done|].
  rewrite !elem_of_cons, list_elem_of_filter. intros [->|[_ Hp]]; auto.
Qed.

Lemma elem_of_annotate_Count_tags rows p n :
  (p, n) ∈ annotate_Count_tags rows →
  p ∈ rows ∧ n = length (filter (λ q, id q = id p) rows).
Proof.
  unfold annotate_Count_tags.
  intros (q & [= -> ->] & Hq%elem_of_group_by_id)%list_elem_of_fmap. done.
Qed.





End queries.

(** * Similar posts *)


Lemma StronglySorted_take {A} (R : relation A) (l : list A) n :
  StronglySorted R l → StronglySorted R (take n l).
Proof.
  intros Hs. rewrite <- (take_drop n l) in Hs. by apply StronglySorted_app_1_l in Hs.
Qed.


Section similar_posts.
Context (now : datetime) (db : Database) (R : Post).

(** The candidates before ranking and truncation. *)
Let candidates : list Post :=
  exclude_id (id R)
    (filter_tags_in db (post_tags_ids db R) (PublishedManager_get_queryset now db)).

Let ranked : list (Post * nat) :=
  merge_sort same_tags_publish_desc (annotate_Count_tags candidates).

Lemma similar_posts_take : get_similar_posts now db R = take 4 ranked.
Proof. done. Qed.

Lemma elem_of_candidates C :
  C ∈ candidates ↔
  C ∈ posts db ∧ datetime_le (publish C) now ∧ id C ≠ id R ∧
  ∃ ti, ti ∈ tagged_items db ∧ object_id ti = id C ∧ tag_id ti ∈ post_tags_ids db R.
Proof.
  unfold candidates, exclude_id.
  rewrite list_elem_of_filter, elem_of_filter_tags_in, elem_of_published. tauto.
Qed.

Lemma elem_of_ranked C n :
  (C, n) ∈ ranked →
  C ∈ candidates ∧ n = length (filter (λ q, id q = id C) candidates).
Proof.
  unfold ranked. rewrite merge_sort_Permutation.
  apply elem_of_annotate_Count_tags.
Qed.

Lemma shares_a_tag C :
  (∃ ti, ti ∈ tagged_items db ∧ object_id ti = id C ∧ tag_id ti ∈ post_tags_ids db R) ↔
  ∃ t, t ∈ tag_set db C ∧ t ∈ tag_set db R.
Proof.
  unfold tag_set. setoid_rewrite elem_of_list_to_set. split.
  - intros (ti & Hti & Hobj & Htag). exists (tag_id ti). split; [|done].
    unfold post_tags_ids. apply list_elem_of_fmap. exists ti. split; [done|].
    by apply list_elem_of_filter.
  - intros (t & (ti & -> & [Hobj Hti]%list_elem_of_filter)%list_elem_of_fmap & Htag).
    eauto.
Qed.



End similar_posts.


(** C3. The similar posts of [R] are at most 4; none of them is [R];
    each of them shares at least one tag with [R]; and each of them is a
    published post, visible at the time of the query. *)
Theorem similar_posts_bounds now db R :
  let similar := get_similar_posts now db R in
  (length similar ≤ 4)%nat ∧
  ∀ C n, (C, n) ∈ similar →
    id C ≠ id R ∧ C ≠ R ∧
    tag_set db C ∩ tag_set db R ≠ ∅ ∧
    (C ∈ posts db ∧ datetime_le (publish C) now).
Proof.
  intros similar. unfold similar. rewrite similar_posts_take. split.
  - rewrite length_take. lia.
  - intros C n HC%subseteq_take.
    apply elem_of_ranked in HC as [HC _].
    apply elem_of_candidates in HC as (Hin & Hpub & Hne & Hti).
    apply shares_a_tag in Hti as (t & HtC & HtR).
    repeat split; [done|congruence| |done..].
    intros Hempty. apply (not_elem_of_empty (C:=gset nat) t).
    rewrite <- Hempty. by apply elem_of_intersection.
Qed.

(** * The paginator *)

Section paginator.
Context (posts : list Post).

Let paginator := mk_Paginator posts 4.

Lemma num_pages_ge_1 : 1 ≤ num_pages paginator.
Proof.
  unfold num_pages, count. simpl.
  apply Z.div_le_lower_bound; lia.
Qed.

(** A page number past the last page starts past the last item. *)
Lemma num_pages_spec n :
  1 ≤ n → (n ≤ num_pages paginator ↔ n = 1 ∨ 4 * (n - 1) < Z.of_nat (length posts)).
Proof.
  intros Hn. unfold num_pages, count. simpl.
  pose proof (Z.div_mod (Z.max 1 (Z.of_nat (length posts)) + 4 - 1) 4).
  pose proof (Z.mod_pos_bound (Z.max 1 (Z.of_nat (length posts)) + 4 - 1) 4).
  lia.
Qed.

Lemma slice_page_items n :
  1 ≤ n →
  let bottom := (n - 1) * 4 in
  let top := bottom + 4 in
  slice posts bottom (if count paginator <=? top then count paginator else top) =
  page_items posts n.
Proof.
  intros Hn bottom top. unfold slice, page_items, count. simpl.
  replace (Z.to_nat bottom) with (4 * (Z.to_nat n - 1))%nat by lia.
  destruct (Z.leb_spec (Z.of_nat (length posts)) top) as [Hle|Hlt].
  - rewrite Nat2Z.id, firstn_all. symmetry. apply take_ge.
    rewrite length_drop. lia.
  - rewrite take_drop_commute. f_equal. f_equal. lia.
Qed.

Lemma page_in_range n :
  1 ≤ n ≤ num_pages paginator →
  page paginator (PyInt n) = Ok (nth_page posts n).
Proof.
  intros [H1 Hn]. unfold page, validate_number. simpl.
  destruct (Z.ltb_spec n 1) as [|_]; [lia|].
  destruct (Z.ltb_spec (num_pages paginator) n) as [|_]; [lia|]. simpl.
  unfold nth_page. f_equal. f_equal. by apply slice_page_items.
Qed.

Lemma page_out_of_range n :
  n < 1 ∨ num_pages paginator < n →
  page paginator (PyInt n) = Raise EmptyPage.
Proof.
  pose proof num_pages_ge_1.
  intros Hn. unfold page, validate_number. simpl.
  destruct (Z.ltb_spec n 1) as [|H1]; [done|].
  destruct (Z.ltb_spec (num_pages paginator) n) as [|?]; [|lia].
  destruct (Z.eqb_spec n 1); [lia|done].
Qed.

Lemma page_str s :
  page paginator (PyStr s) =
  match int_of_str s with
  | Some n => page paginator (PyInt n)
  | None => Raise PageNotAnInteger
  end.
Proof. unfold page, validate_number. simpl. by destruct (int_of_str s). Qed.

Lemma page_first : page paginator (PyInt 1) = Ok (nth_page posts 1).
Proof. pose proof num_pages_ge_1. apply page_in_range. lia. Qed.

Lemma page_last :
  page paginator (PyInt (num_pages paginator)) =
  Ok (nth_page posts (num_pages paginator)).
Proof. pose proof num_pages_ge_1. apply page_in_range. lia. Qed.

Lemma page_items_subseteq n : page_items posts n ⊆ posts.
Proof.
  unfold page_items. etrans; [apply subseteq_take|]. apply subseteq_drop.
Qed.

Lemma page_items_length n : (length (page_items posts n) ≤ 4)%nat.
Proof. unfold page_items. rewrite length_take. lia. Qed.

Context (request : HttpRequest).

(** The three outcomes of lines 47-57. *)
Lemma paginate_not_an_integer :
  match QueryDict_get "page" (GET request) with
  | Some token => int_of_str token = None
  | None => True
  end →
  paginate request posts = Ok (inr (nth_page posts 1)).
Proof.
  intros Htoken. unfold paginate. fold paginator.
  destruct (QueryDict_get "page" (GET request)) as [token|].
  - rewrite page_str, Htoken. by rewrite page_first.
  - replace (page paginator PyNone) with (@Raise Page PageNotAnInteger) by done.
    by rewrite page_first.
Qed.

Lemma paginate_in_range token n :
  QueryDict_get "page" (GET request) = Some token →
  int_of_str token = Some n →
  1 ≤ n ≤ num_pages paginator →
  paginate request posts = Ok (inr (nth_page posts n)).
Proof.
  intros Htoken Hint Hn. unfold paginate. fold paginator.
  by rewrite Htoken, page_str, Hint, page_in_range.
Qed.

Lemma paginate_out_of_range token n :
  QueryDict_get "page" (GET request) = Some token →
  int_of_str token = Some n →
  n < 1 ∨ num_pages paginator < n →
  paginate request posts =
  if is_ajax request then Ok (inl (HttpResponse_content ""))
  else Ok (inr (nth_page posts (num_pages paginator))).
Proof.
  intros Htoken Hint Hn. unfold paginate. fold paginator.
  rewrite Htoken, page_str, Hint, page_out_of_range by done.
  destruct (is_ajax request); [done|]. by rewrite page_last.
Qed.

(** Pagination never fails, and what it shows is a page of [posts]
    of at most 4 items, or the empty response. *)
Lemma paginate_total :
  (is_ajax request = true ∧
   paginate request posts = Ok (inl (HttpResponse_content ""))) ∨
  ∃ n, 1 ≤ n ≤ num_pages paginator ∧
       paginate request posts = Ok (inr (nth_page posts n)).
Proof.
  pose proof num_pages_ge_1.
  destruct (QueryDict_get "page" (GET request)) as [token|] eqn:Htoken.
  - destruct (int_of_str token) as [n|] eqn:Hint.
    + destruct (decide (1 ≤ n ≤ num_pages paginator)) as [Hn|Hn].
      * right. exists n. split; [done|]. by eapply paginate_in_range.
      * rewrite (paginate_out_of_range token n) by (done || lia).
        destruct (is_ajax request); [by left|].
        right. exists (num_pages paginator). split; [lia|done].
    + right. exists 1. split; [lia|].
      apply paginate_not_an_integer. by rewrite Htoken.
  - right. exists 1. split; [lia|].
    apply paginate_not_an_integer. by rewrite Htoken.
Qed.
End paginator.


(** * The listing view *)

Section post_list.
Context (TrigramSimilarity : string → string → Q).
Context (now : datetime) (db : Database) (request : HttpRequest).
Context (tag_slug : option string) (year month : option Z).

(** [post_list] once its first two stages have succeeded. *)
Lemma post_list_stages posts0 date tag posts query form :
  base_filter now db tag_slug year month = Ok (posts0, date, tag) →
  query_filter TrigramSimilarity request posts0 = Ok (posts, query, form) →
  post_list TrigramSimilarity now db request tag_slug year month =
  match paginate request posts with
  | Ok (inl response) => Ok response
  | Ok (inr page) =>
      if is_ajax request then Ok (render_list_ajax page)
      else Ok (render_list (mk_list_context tag date page query form (length posts)))
  | Raise e => Raise e
  end.
Proof.
  intros Hbase Hquery. unfold post_list. rewrite Hbase. simpl.
  rewrite Hquery. simpl.
  destruct (paginate request posts) as [[?|?]|?]; done.
Qed.

Lemma post_list_base_raise e :
  base_filter now db tag_slug year month = Raise e →
  post_list TrigramSimilarity now db request tag_slug year month = Raise e.
Proof. intros Hbase. unfold post_list. by rewrite Hbase. Qed.

Lemma post_list_query_raise posts0 date tag e :
  base_filter now db tag_slug year month = Ok (posts0, date, tag) →
  query_filter TrigramSimilarity request posts0 = Raise e →
  post_list TrigramSimilarity now db request tag_slug year month = Raise e.
Proof.
  intros Hbase Hquery. unfold post_list. rewrite Hbase. simpl. by rewrite Hquery.
Qed.
End post_list.


(** * The base filter *)

Lemma truthy_int_true v : truthy_int v = true ↔ ∃ n, v = Some n ∧ n ≠ 0.
Proof.
  destruct v as [n|]; simpl.
  - destruct (Z.eqb_spec n 0); simpl; split; try done.
    + intros (? & [= <-] & ?). done.
    + eauto.
  - split; [done|]. by intros (? & ? & ?).
Qed.

Lemma truthy_str_true v : truthy_str v = true ↔ ∃ s, v = Some s ∧ s ≠ "".
Proof.
  destruct v as [s|]; simpl.
  - destruct (String.eqb_spec s ""); simpl; split; try done.
    + intros (? & [= <-] & ?). done.
    + eauto.
  - split; [done|]. by intros (? & ? & ?).
Qed.

Lemma days_in_month_ge y m : 28 ≤ days_in_month y m.
Proof. unfold days_in_month. repeat case_match; lia. Qed.

Lemma date_error_cases y m : date_error y m = ValueError ∨ date_error y m = OverflowError.
Proof. unfold date_error. destruct (_ && _); auto. Qed.

Lemma datetime_new_first y m :
  datetime_new y m 1 =
  if decide (1 ≤ y ≤ 9999 ∧ 1 ≤ m ≤ 12) then Ok (mk_datetime y m 1 0)
  else Raise (date_error y m).
Proof.
  pose proof (days_in_month_ge y m). unfold datetime_new, date_error, fits_C_int.
  destruct (Z.leb_spec (- 2 ^ 31) y), (Z.ltb_spec y (2 ^ 31)),
    (Z.leb_spec (- 2 ^ 31) m), (Z.ltb_spec m (2 ^ 31)),
    (Z.leb_spec 1 y), (Z.leb_spec y 9999), (Z.leb_spec 1 m),
    (Z.leb_spec m 12), (Z.leb_spec 1 (days_in_month y m));
    simpl; case_decide; done || lia.
Qed.

Section base_filter.
Context (now : datetime) (db : Database).

Let published := PublishedManager_get_queryset now db.

Lemma base_filter_archive tag_slug y m :
  y ≠ 0 → m ≠ 0 →
  base_filter now db tag_slug (Some y) (Some m) =
  if decide (1 ≤ y ≤ 9999 ∧ 1 ≤ m ≤ 12) then
    Ok (filter (λ p, dt_year (publish p) = y ∧ dt_month (publish p) = m) published,
        Some (mk_datetime y m 1 0), None)
  else Raise (date_error y m).
Proof.
  intros Hy Hm. unfold base_filter. simpl.
  destruct (Z.eqb_spec y 0), (Z.eqb_spec m 0); try done. simpl.
  rewrite datetime_new_first. by case_decide.
Qed.

Lemma base_filter_tag s year month :
  truthy_int year && truthy_int month = false → s ≠ "" →
  base_filter now db (Some s) year month =
  tag ← get_object_or_404 "Tag" (filter (λ t, Tag_slug t = s) (tags db));
  Ok (filter_tags_in db [Tag_id tag] published, None, Some tag).
Proof.
  intros Hym Hs. unfold base_filter. rewrite Hym. simpl.
  by destruct (String.eqb_spec s "").
Qed.

Lemma base_filter_none tag_slug year month :
  truthy_int year && truthy_int month = false → truthy_str tag_slug = false →
  base_filter now db tag_slug year month = Ok (published, None, None).
Proof. intros Hym Hs. unfold base_filter. by rewrite Hym, Hs. Qed.

Lemma elem_of_tag_filter t p :
  p ∈ filter_tags_in db [Tag_id t] published ↔
  p ∈ posts db ∧ datetime_le (publish p) now ∧ Tag_id t ∈ tag_set db p.
Proof.
  rewrite elem_of_filter_tags_in. unfold published. rewrite elem_of_published.
  unfold tag_set, post_tags_ids. rewrite elem_of_list_to_set, list_elem_of_fmap.
  setoid_rewrite list_elem_of_filter. setoid_rewrite list_elem_of_singleton.
  naive_solver.
Qed.

(** Whatever the branch, the base filter only keeps published posts. *)
Lemma base_filter_published tag_slug year month qs date tag p :
  base_filter now db tag_slug year month = Ok (qs, date, tag) →
  p ∈ qs → p ∈ posts db ∧ datetime_le (publish p) now.
Proof.
  unfold base_filter. fold published. intros Hbase Hp.
  assert (p ∈ published → p ∈ posts db ∧ datetime_le (publish p) now) as Hpub.
  { unfold published. by rewrite elem_of_published. }
  destruct (truthy_int year && truthy_int month).
  - destruct (datetime_new _ _ _) as [d|]; [|done]. simpl in Hbase.
    injection Hbase as <- _ _. apply list_elem_of_filter in Hp as [_ Hp]. auto.
  - destruct (truthy_str tag_slug).
    + destruct (get_object_or_404 _ _) as [t|]; [|done]. simpl in Hbase.
      injection Hbase as <- _ _. apply elem_of_tag_filter in Hp. tauto.
    + injection Hbase as <- _ _. auto.
Qed.
End base_filter.

(** C6 (as stated) fails on [/archive/2020/0/]: year and month are both
    passed, yet [if year and month] takes [0] for an absent month, no
    filter is applied and posts of other months are listed. *)
Lemma archive_month_zero_unfiltered :
  urlpatterns ["archive"; "2020"; "0"] =
    Some (call_post_list None (Some 2020) (Some 0)) ∧
  base_filter sample_now sample_db None (Some 2020) (Some 0) =
    Ok ([sample_post; similar_post; more_similar_post; some_post; march_post],
        None, None) ∧
  ¬ (dt_year (publish march_post) = 2020 ∧ dt_month (publish march_post) = 0).
Proof. split; [|split]; [by vm_compute..|]. intros [_ ?]. done. Qed.

(** C6, amended. The base filter is chosen by priority.
    - When year and month are both passed and non-zero: if they are a
      year and a month, the result is the published posts of that year
      and month and no tag is looked up; if they are not, the request
      fails with the error of the date constructor ([ValueError];
      [OverflowError] for a number that is not a C integer).
    - Otherwise, when a non-empty tag slug is passed, the slug is looked
      up: [Http404] when no tag has it; when one tag has it, the result
      is the published posts carrying that tag, of any month.
    - The month filter and the tag filter are never both applied. *)
Theorem base_filter_priority now db tag_slug year month :
  (∀ y m, year = Some y → month = Some m → y ≠ 0 → m ≠ 0 →
     (1 ≤ y ≤ 9999 ∧ 1 ≤ m ≤ 12 →
      ∃ qs,
        base_filter now db tag_slug year month =
          Ok (qs, Some (mk_datetime y m 1 0), None) ∧
        ∀ p, p ∈ qs ↔
             (p ∈ posts db ∧ datetime_le (publish p) now) ∧
             dt_year (publish p) = y ∧ dt_month (publish p) = m) ∧
     (¬ (1 ≤ y ≤ 9999 ∧ 1 ≤ m ≤ 12) →
      ∃ e,
        base_filter now db tag_slug year month = Raise e ∧
        (e = ValueError ∨ e = OverflowError) ∧
        (fits_C_int y = true → fits_C_int m = true → e = ValueError))) ∧
  (∀ s, ¬ (∃ y m, year = Some y ∧ month = Some m ∧ y ≠ 0 ∧ m ≠ 0) →
     tag_slug = Some s → s ≠ "" →
     ((∀ t, t ∈ tags db → Tag_slug t ≠ s) →
        base_filter now db tag_slug year month =
        Raise (Http404 "No Tag matches the given query.")) ∧
     (∀ t, NoDup (tags db) → t ∈ tags db → Tag_slug t = s →
           (∀ t', t' ∈ tags db → Tag_slug t' = s → t' = t) →
        ∃ qs,
          base_filter now db tag_slug year month = Ok (qs, None, Some t) ∧
          ∀ p, p ∈ qs ↔
               (p ∈ posts db ∧ datetime_le (publish p) now) ∧
               Tag_id t ∈ tag_set db p) ∧
     (∀ qs date tag,
        base_filter now db tag_slug year month = Ok (qs, date, tag) →
        ∃ t, tag = Some t ∧ t ∈ tags db ∧ Tag_slug t = s ∧ date = None ∧
          ∀ p, p ∈ qs ↔
               (p ∈ posts db ∧ datetime_le (publish p) now) ∧
               Tag_id t ∈ tag_set db p)) ∧
  (∀ qs date tag,
     base_filter now db tag_slug year month = Ok (qs, date, tag) →
     date = None ∨ tag = None).
Proof.
  split; [|split].
  - intros y m -> -> Hy Hm. rewrite base_filter_archive by done. split.
    + intros Hdate. rewrite decide_True by done. eexists. split; [done|].
      intros p. rewrite list_elem_of_filter, elem_of_published. tauto.
    + intros Hdate. rewrite decide_False by done. exists (date_error y m).
      split_and!; [done|apply date_error_cases|].
      intros Hfy Hfm. unfold date_error. by rewrite Hfy, Hfm.
  - intros s Hym -> Hs.
    assert (truthy_int year && truthy_int month = false) as Htruthy.
    { apply not_true_is_false. intros [Hy Hm]%andb_true_iff.
      apply truthy_int_true in Hy as (y & -> & ?), Hm as (m & -> & ?).
      apply Hym. eauto 10. }
    rewrite base_filter_tag by done. split_and!.
    + intros Hnone.
      replace (filter (λ t, Tag_slug t = s) (tags db)) with (@nil Tag); [done|].
      symmetry. apply filter_nil_Forall, Forall_forall. auto.
    + intros t Hnd Ht Hts Huniq.
      rewrite (filter_unique (λ t, Tag_slug t = s) (tags db) t) by done.
      simpl. eexists. split; [done|]. intros p. rewrite elem_of_tag_filter. tauto.
    + destruct (filter (λ t, Tag_slug t = s) (tags db)) as [|t [|t' l]] eqn:Hfilter;
        [done| |done].
      assert (t ∈ tags db ∧ Tag_slug t = s) as [Ht Hts].
      { assert (t ∈ filter (λ t, Tag_slug t = s) (tags db)) as Hin
          by (rewrite Hfilter; left).
        apply list_elem_of_filter in Hin. tauto. }
      simpl. intros qs date tag [= <- <- <-]. exists t.
      split_and!; [done..|]. intros p. rewrite elem_of_tag_filter. tauto.
  - intros qs date tag. unfold base_filter.
    destruct (truthy_int year && truthy_int month).
    + destruct (datetime_new _ _ _); [|done]. simpl. intros [= _ _ <-]. by right.
    + destruct (truthy_str tag_slug).
      * destruct (get_object_or_404 _ _); [|done]. simpl. intros [= _ <- _]. by left.
      * intros [= _ <- _]. by left.
Qed.

(** C10 (as stated) fails on [/archive/2020/0/]: the month is passed and
    outside 1..12, yet nothing is raised: the request is answered with
    the unfiltered first page. *)
Lemma archive_month_zero_no_error :
  urlpatterns ["archive"; "2020"; "0"] =
    Some (call_post_list None (Some 2020) (Some 0)) ∧
  ¬ (1 ≤ 0 ≤ 12) ∧
  response_posts <$>
    post_list sample_similarity sample_now sample_db (get_request [])
      None (Some 2020) (Some 0) =
  Ok [sample_post; similar_post; more_similar_post; some_post].
Proof. split; [|split]; [by vm_compute|lia|by vm_compute]. Qed.

(** C10, amended. When year and month are both passed and non-zero and
    the month is outside 1..12, the construction of the first-of-month
    date raises ([ValueError]; [OverflowError] for a number that is not
    a C integer) and the listing fails with that error: nothing catches
    it. *)
Theorem archive_month_out_of_range TrigramSimilarity now db request tag_slug y m :
  y ≠ 0 → m ≠ 0 → ¬ (1 ≤ m ≤ 12) →
  ∃ e,
    (e = ValueError ∨ e = OverflowError) ∧
    (fits_C_int y = true → fits_C_int m = true → e = ValueError) ∧
    datetime_new y m 1 = Raise e ∧
    post_list TrigramSimilarity now db request tag_slug (Some y) (Some m) = Raise e.
Proof.
  intros Hy Hm Hrange. exists (date_error y m). split_and!.
  - apply date_error_cases.
  - intros Hfy Hfm. unfold date_error. by rewrite Hfy, Hfm.
  - rewrite datetime_new_first. case_decide; [lia|done].
  - apply post_list_base_raise. rewrite base_filter_archive by done.
    case_decide; [lia|done].
Qed.

Lemma archive_month_out_of_range_witness :
  urlpatterns ["archive"; "2020"; "13"] =
    Some (call_post_list None (Some 2020) (Some 13)) ∧
  datetime_new 2020 13 1 = Raise ValueError ∧
  post_list sample_similarity sample_now sample_db (get_request [])
    None (Some 2020) (Some 13) = Raise ValueError.
Proof.
  split; [by vm_compute|].
  destruct (archive_month_out_of_range sample_similarity sample_now sample_db
              (get_request []) None 2020 13) as (e & _ & He & Hdate & Hlist);
    [lia..|].
  rewrite (He eq_refl eq_refl) in Hdate, Hlist. split; [exact Hdate|exact Hlist].
Defined.

(** * The search *)

Section search.
Context (TrigramSimilarity : string → string → Q).

Global Instance similarity_desc_total query :
  Total (similarity_desc TrigramSimilarity query).
Proof.
  intros p q. unfold similarity_desc.
  destruct (Qlt_le_dec (TrigramSimilarity (title p) query)
              (TrigramSimilarity (title q) query)) as [?%Qlt_le_weak|?]; auto.
Qed.

Global Instance similarity_desc_trans query :
  Transitive (similarity_desc TrigramSimilarity query).
Proof. intros p q r Hpq Hqr. unfold similarity_desc in *. by eapply Qle_trans. Qed.

Lemma similarity_ranker_perm query qs :
  similarity_ranker TrigramSimilarity query qs ≡ₚ
  filter (λ p, (1 # 10 < TrigramSimilarity (title p) query)%Q) qs.
Proof. apply merge_sort_Permutation. Qed.




(** The search only keeps posts of the set it is given. *)
Lemma query_filter_subseteq request qs ranked query form :
  query_filter TrigramSimilarity request qs = Ok (ranked, query, form) →
  ranked ⊆ qs.
Proof.
  unfold query_filter. repeat case_match; try done; intros [= <- _ _]; [|done].
  intros p. rewrite similarity_ranker_perm, list_elem_of_filter. tauto.
Qed.

(** A listing whose first two stages succeed is answered, with posts
    of the ranked sequence only. *)
Lemma post_list_answer now db request tag_slug year month qs0 date tag qs query form :
  base_filter now db tag_slug year month = Ok (qs0, date, tag) →
  query_filter TrigramSimilarity request qs0 = Ok (qs, query, form) →
  ∃ response,
    post_list TrigramSimilarity now db request tag_slug year month = Ok response ∧
    response_posts response ⊆ qs ∧
    (is_ajax request = false →
     ∃ n, 1 ≤ n ≤ num_pages (mk_Paginator qs 4) ∧
          response =
          render_list (mk_list_context tag date (nth_page qs n) query form (length qs))).
Proof.
  intros Hbase Hquery.
  rewrite (post_list_stages _ _ _ _ _ _ _ _ _ _ _ _ _ Hbase Hquery).
  destruct (paginate_total qs request) as [[Hajax ->]|(n & Hn & ->)].
  - eexists. split; [done|]. split; [apply list_subseteq_nil|].
    intros Hfull. congruence.
  - destruct (is_ajax request).
    + eexists. split; [done|]. split; [apply page_items_subseteq|done].
    + eexists. split; [done|]. split; [apply page_items_subseteq|].
      intros _. by exists n.
Qed.
End search.






(** * Visibility *)

Lemma get_object_or_404_Ok {A} model (l : list A) x :
  get_object_or_404 model l = Ok x → l = [x].
Proof. destruct l as [|y [|z l]]; simpl; congruence. Qed.

Lemma similar_posts_published now db R C n :
  (C, n) ∈ get_similar_posts now db R →
  C ∈ posts db ∧ datetime_le (publish C) now.
Proof.
  rewrite similar_posts_take. intros HC%subseteq_take.
  apply elem_of_ranked in HC as [HC _].
  apply elem_of_candidates in HC. tauto.
Qed.

Lemma year_lookup_bounds_cases year :
  year_lookup_bounds year =
  if decide (1 ≤ year ≤ 9999)
  then Ok (mk_datetime year 1 1 0, mk_datetime year 12 31 86399999999)
  else Raise (date_error year 1).
Proof.
  unfold year_lookup_bounds. rewrite datetime_new_first.
  repeat case_decide; done || lia.
Qed.

Lemma detail_lookup_in_range now db year month day slug_ :
  1 ≤ year ≤ 9999 →
  detail_lookup now db year month day slug_ =
  get_object_or_404 "Post"
    (filter (λ p, slug p = slug_ ∧ datetime_le (publish p) now ∧
                  dt_year (publish p) = year ∧ dt_month (publish p) = month ∧
                  dt_day (publish p) = day)
       (posts db)).
Proof.
  intros Hyear. unfold detail_lookup.
  by rewrite year_lookup_bounds_cases, decide_True.
Qed.

Lemma detail_lookup_out_of_range now db year month day slug_ :
  ¬ (1 ≤ year ≤ 9999) →
  detail_lookup now db year month day slug_ = Raise (date_error year 1).
Proof.
  intros Hyear. unfold detail_lookup.
  by rewrite year_lookup_bounds_cases, decide_False.
Qed.

Lemma detail_lookup_Ok now db year month day slug_ p :
  detail_lookup now db year month day slug_ = Ok p →
  p ∈ posts db ∧ slug p = slug_ ∧ datetime_le (publish p) now ∧
  dt_year (publish p) = year ∧ dt_month (publish p) = month ∧
  dt_day (publish p) = day.
Proof.
  destruct (decide (1 ≤ year ≤ 9999)) as [Hyear|Hyear];
    [|by rewrite detail_lookup_out_of_range].
  rewrite detail_lookup_in_range by done.
  intros Hget%get_object_or_404_Ok.
  assert (p ∈ [p]) as Hp by left. rewrite <- Hget in Hp.
  apply list_elem_of_filter in Hp. tauto.
Qed.

Lemma post_list_Ok TrigramSimilarity now db request tag_slug year month response :
  post_list TrigramSimilarity now db request tag_slug year month = Ok response →
  ∃ qs0 date tag qs query form,
    base_filter now db tag_slug year month = Ok (qs0, date, tag) ∧
    query_filter TrigramSimilarity request qs0 = Ok (qs, query, form) ∧
    response_posts response ⊆ qs.
Proof.
  intros Hresponse.
  destruct (base_filter now db tag_slug year month) as [[[qs0 date] tag]|e] eqn:Hbase.
  - destruct (query_filter TrigramSimilarity request qs0)
      as [[[qs query] form]|e] eqn:Hquery.
    + destruct (post_list_answer _ _ _ _ _ _ _ _ _ _ _ _ _ Hbase Hquery)
        as (response' & Hresponse' & Hsub & _).
      exists qs0, date, tag, qs, query, form. split_and!; [done..|].
      rewrite Hresponse in Hresponse'. by injection Hresponse' as <-.
    + rewrite (post_list_query_raise _ _ _ _ _ _ _ _ _ _ _ Hbase Hquery) in Hresponse.
      done.
  - by rewrite (post_list_base_raise _ _ _ _ _ _ _ _ Hbase) in Hresponse.
Qed.

(** C1. Whatever a read path returns was published at or before the
    time of its query: the posts of a listing (main, by tag, by month,
    searched), the similar posts of a post, and the post and the similar
    posts of the detail view. No post with a later publish time appears. *)
Theorem future_posts_invisible TrigramSimilarity validate_email now now' db :
  (∀ request tag_slug year month response P,
     post_list TrigramSimilarity now db request tag_slug year month = Ok response →
     P ∈ response_posts response →
     P ∈ posts db ∧ datetime_le (publish P) now) ∧
  (∀ R P n,
     (P, n) ∈ get_similar_posts now db R →
     P ∈ posts db ∧ datetime_le (publish P) now) ∧
  (∀ request year month day slug_ context,
     out_response (post_detail validate_email now now' db request year month day slug_) =
       Ok (render_detail context) →
     (ctx_post context ∈ posts db ∧ datetime_le (publish (ctx_post context)) now) ∧
     ∀ P n, (P, n) ∈ ctx_similar_posts context →
            P ∈ posts db ∧ datetime_le (publish P) now').
Proof.
  split; [|split].
  - intros request tag_slug year month response P Hresponse HP.
    apply post_list_Ok in Hresponse
      as (qs0 & date & tag & qs & query & form & Hbase & Hquery & Hsub).
    eapply base_filter_published; [done|].
    eapply query_filter_subseteq; [done|]. by apply Hsub.
  - intros R P n. apply similar_posts_published.
  - intros request year month day slug_ context. unfold post_detail.
    destruct (detail_lookup now db year month day slug_) as [p|e] eqn:Hlookup; [|done].
    apply detail_lookup_Ok in Hlookup as (Hin & _ & Hpub & _).
    assert (∀ st msgs form,
      out_response
        (mk_outcome st msgs
           (Ok (render_detail
                  (mk_detail_context p (get_active_comments db p) None
                     (mk_SearchForm None) form (get_similar_posts now' db p))))) =
      Ok (render_detail context) →
      (ctx_post context ∈ posts db ∧ datetime_le (publish (ctx_post context)) now) ∧
      ∀ P n, (P, n) ∈ ctx_similar_posts context →
             P ∈ posts db ∧ datetime_le (publish P) now') as Hrespond.
    { intros st msgs form [= <-]. simpl. split; [done|].
      intros P n. apply similar_posts_published. }
    destruct (String.eqb (method request) "POST").
    + destruct (CommentForm_is_valid _ _); [done|]. apply Hrespond.
    + apply Hrespond.
Qed.

(** * Comment submission *)

(** [post_detail] never writes to the store. *)
Lemma post_detail_store_unchanged validate_email now now' db request year month day slug_ :
  out_db (post_detail validate_email now now' db request year month day slug_) = db.
Proof.
  unfold post_detail. destruct (detail_lookup _ _ _ _ _ _); [|done].
  destruct (String.eqb _ _); [|done]. by destruct (CommentForm_is_valid _ _).
Qed.

(** Saving the form itself would insert the comment. *)
Lemma CommentForm_save_persists validate_email now db data post :
  CommentForm_is_valid validate_email (mk_CommentForm (Some data) (Some post)) = true →
  ∃ comment,
    CommentForm_save validate_email now (mk_CommentForm (Some data) (Some post)) db =
      Ok (mk_Database (posts db) (tags db) (tagged_items db) (comment :: comments db),
          comment) ∧
    comment_post comment = id post.
Proof.
  unfold CommentForm_is_valid, CommentForm_save, ModelForm_save.
  intros [[[name email] body_] Hclean]%bool_decide_eq_true.
  simpl. rewrite Hclean. simpl. eauto.
Qed.

(** C8. On a POST to a visible post with a comment form that validates,
    [save] is called on [new_comment], which still holds [None]: the
    call raises [AttributeError], no comment is stored and no success
    message is added. *)
Theorem comment_submission_fails validate_email now now' db request
    year month day slug_ post :
  detail_lookup now db year month day slug_ = Ok post →
  method request = "POST" →
  CommentForm_is_valid validate_email
    (mk_CommentForm (Some (POST request)) (Some post)) = true →
  call_save None db = Raise AttributeError ∧
  post_detail validate_email now now' db request year month day slug_ =
  mk_outcome db [] (Raise AttributeError).
Proof.
  intros Hlookup Hmethod Hvalid. split; [done|].
  unfold post_detail. by rewrite Hlookup, Hmethod, Hvalid.
Qed.

Lemma comment_submission_fails_witness :
  post_detail sample_validate_email sample_now sample_now sample_db
    (post_request [("name", "User"); ("email", "yourusername@example.com");
                   ("body", "Lorem ipsum")])
    2020 9 5 "post" =
  mk_outcome sample_db [] (Raise AttributeError).
Proof.
  apply (comment_submission_fails sample_validate_email sample_now sample_now
           sample_db _ 2020 9 5 "post" sample_post); by vm_compute.
Defined.

(** * The theorems at the sample data *)

Lemma sample_db_constraints : db_constraints sample_db.
Proof. split; by_evaluation. Qed.



(** The scenarios of [tests.py] and of the specification. *)

Example test_future_and_past_post :
  response_posts <$>
    post_list sample_similarity sample_now sample_db (get_request []) None None None =
  Ok [sample_post; similar_post; more_similar_post; some_post].
Proof. by vm_compute. Qed.

Example test_pagination_with_last_page :
  response_posts <$>
    post_list sample_similarity sample_now sample_db (get_request [("page", "2")])
      None None None =
  Ok [march_post].
Proof. by vm_compute. Qed.

Example test_pagination_with_out_of_range_page :
  response_posts <$>
    post_list sample_similarity sample_now sample_db (get_request [("page", "3")])
      None None None =
  Ok [march_post].
Proof. by vm_compute. Qed.

Example test_ajax_pagination_with_out_of_range_page :
  post_list sample_similarity sample_now sample_db (ajax_request [("page", "3")])
    None None None =
  Ok (HttpResponse_content "").
Proof. by vm_compute. Qed.

Example test_pagination_with_invalid_page :
  response_posts <$>
    post_list sample_similarity sample_now sample_db (get_request [("page", "invalid")])
      None None None =
  Ok [sample_post; similar_post; more_similar_post; some_post].
Proof. by vm_compute. Qed.

Example test_pagination_below_one :
  response_posts <$>
    post_list sample_similarity sample_now sample_db (get_request [("page", "-1")])
      None None None =
  Ok [march_post].
Proof. by vm_compute. Qed.

Example test_query_posts_without_result :
  ∃ page,
    post_list sample_similarity sample_now sample_db (get_request [("query", "qwe")])
      (Some "foo") None None =
    Ok (render_list
          (mk_list_context (Some foo) None page (Some "qwe")
             (mk_SearchForm (Some [("query", "qwe")])) 0)) ∧
    page_object_list page = [].
Proof. eexists. split; by vm_compute. Qed.

Example test_posts_filtered_by_tag :
  response_posts <$>
    post_list sample_similarity sample_now sample_db (get_request [])
      (Some "bar") None None =
  Ok [sample_post; more_similar_post; march_post].
Proof. by vm_compute. Qed.

Example test_nonexistent_tag :
  post_list sample_similarity sample_now sample_db (get_request [])
    (Some "baz") None None =
  Raise (Http404 "No Tag matches the given query.").
Proof. by vm_compute. Qed.

Example test_archive_march :
  response_posts <$>
    post_list sample_similarity sample_now sample_db (get_request [])
      None (Some 2020) (Some 3) =
  Ok [march_post].
Proof. by vm_compute. Qed.

Example test_similar_posts_with_multiple_same_tags :
  get_similar_posts sample_now sample_db sample_post =
  [(more_similar_post, 2%nat); (similar_post, 1%nat); (march_post, 1%nat)].
Proof. by vm_compute. Qed.

Example test_detail_future_post :
  out_response
    (post_detail sample_validate_email sample_now sample_now sample_db
       (get_request []) 2020 11 4 "future-post") =
  Raise (Http404 "No Post matches the given query.").
Proof. by vm_compute. Qed.

(** [/0/9/5/post/] and [/10000/9/5/post/] are routed; the bounds of the
    year cannot be built. *)
Example test_detail_year_zero :
  out_response
    (post_detail sample_validate_email sample_now sample_now sample_db
       (get_request []) 0 9 5 "post") =
  Raise ValueError.
Proof. by vm_compute. Qed.

Example test_detail_year_10000 :
  out_response
    (post_detail sample_validate_email sample_now sample_now sample_db
       (get_request []) 10000 9 5 "post") =
  Raise ValueError.
Proof. by vm_compute. Qed.

Example test_detail_year_beyond_C_int :
  out_response
    (post_detail sample_validate_email sample_now sample_now sample_db
       (get_request []) (2 ^ 31) 9 5 "post") =
  Raise OverflowError.
Proof. by vm_compute. Qed.

Example test_archive_month_13 :
  base_filter sample_now sample_db None (Some 2020) (Some 13) = Raise ValueError.
Proof. by vm_compute. Qed.

(** * Numbers as text *)

Lemma digit_value_range c :
  is_Some (digit_value c) → (48 ≤ nat_of_ascii c ≤ 57)%nat.
Proof.
  unfold digit_value. intros [d Hd].
  destruct (Nat.leb_spec 48 (nat_of_ascii c)), (Nat.leb_spec (nat_of_ascii c) 57);
    simpl in Hd; done || lia.
Qed.

Lemma digit_not_space c : is_Some (digit_value c) → Py_ISSPACE c = false.
Proof.
  intros Hc%digit_value_range. unfold Py_ISSPACE.
  destruct (Nat.leb_spec 9 (nat_of_ascii c)), (Nat.leb_spec (nat_of_ascii c) 13),
    (Nat.eqb_spec (nat_of_ascii c) 32); simpl; done || lia.
Qed.

Lemma lstrip_no_space space cs :
  Forall (λ c, space c = false) cs → lstrip space cs = cs.
Proof. destruct 1 as [|c cs Hc _]; simpl; [done|]. by rewrite Hc. Qed.

Lemma strip_with_no_space space cs :
  Forall (λ c, space c = false) cs → strip_with space cs = cs.
Proof.
  intros Hcs. unfold strip_with. rewrite (lstrip_no_space _ cs) by done.
  rewrite lstrip_no_space by (by apply Forall_reverse). apply reverse_involutive.
Qed.

Lemma digit_value_pretty_N_char d :
  (d < 10)%N → digit_value (pretty_N_char d) = Some (Z.of_N d).
Proof.
  intros Hd.
  assert (d = 0 ∨ d = 1 ∨ d = 2 ∨ d = 3 ∨ d = 4 ∨ d = 5 ∨ d = 6 ∨ d = 7 ∨
          d = 8 ∨ d = 9)%N as Hcases by lia.
  repeat (destruct Hcases as [->|Hcases]; [done|]). by subst.
Qed.

(** Reading the digits written for [x] adds [x] to what was read so far. *)
Lemma parse_digits_pretty_N_go x :
  (0 < x)%N →
  ∃ k : nat, ∀ s acc prev,
    parse_digits (list_ascii_of_string (pretty_N_go x s)) acc prev =
    parse_digits (list_ascii_of_string s) (acc * 10 ^ Z.of_nat k + Z.of_N x) true.
Proof.
  induction (N.lt_wf_0 x) as [x _ IH]. intros Hx.
  assert (x `mod` 10 < 10)%N as Hmod by (apply N.mod_lt; lia).
  pose proof (N.div_mod x 10) as Hdiv.
  destruct (decide (x `div` 10 = 0)%N) as [Hzero|Hpos].
  - exists 1%nat. intros s acc prev.
    rewrite pretty_N_go_step, Hzero, pretty_N_go_0 by done. simpl.
    rewrite digit_value_pretty_N_char by done. f_equal. lia.
  - destruct (IH (x `div` 10)%N) as [k Hk]; [apply N.div_lt; lia|lia|].
    exists (S k). intros s acc prev.
    rewrite pretty_N_go_step, Hk by done. simpl.
    rewrite digit_value_pretty_N_char by done. f_equal.
    rewrite Nat2Z.inj_succ, Z.pow_succ_r by lia. lia.
Qed.

Lemma pretty_N_go_digits x s :
  Forall (λ c, is_Some (digit_value c)) (list_ascii_of_string s) →
  Forall (λ c, is_Some (digit_value c)) (list_ascii_of_string (pretty_N_go x s)).
Proof.
  revert s. induction (N.lt_wf_0 x) as [x _ IH]. intros s Hs.
  destruct (decide (x = 0)%N) as [->|Hx]; [by rewrite pretty_N_go_0|].
  rewrite pretty_N_go_step by lia. apply IH; [apply N.div_lt; lia|].
  simpl. constructor; [|done].
  rewrite digit_value_pretty_N_char; [done|apply N.mod_lt; lia].
Qed.

Lemma pretty_N_go_nonempty x s :
  (0 < x)%N → list_ascii_of_string (pretty_N_go x s) ≠ [].
Proof.
  revert s. induction (N.lt_wf_0 x) as [x _ IH]. intros s Hx.
  rewrite pretty_N_go_step by done.
  destruct (decide (x `div` 10 = 0)%N) as [->|Hpos].
  - by rewrite pretty_N_go_0.
  - apply IH; [apply N.div_lt; lia|by apply N.neq_0_lt_0].
Qed.

(** The text of a natural number: digits only, which read back as it. *)
Lemma pretty_N_spec (x : N) :
  list_ascii_of_string (pretty x) ≠ [] ∧
  Forall (λ c, is_Some (digit_value c)) (list_ascii_of_string (pretty x)) ∧
  parse_digits (list_ascii_of_string (pretty x)) 0 false = Some (Z.of_N x).
Proof.
  unfold pretty, pretty_N. case_decide as Hx.
  { subst. split_and!; [done| |done]. by repeat constructor. }
  split; [apply pretty_N_go_nonempty; lia|].
  split; [by apply pretty_N_go_digits|].
  destruct (parse_digits_pretty_N_go x) as [k Hk]; [lia|]. by rewrite Hk.
Qed.

Lemma int_of_str_digits s :
  list_ascii_of_string s ≠ [] →
  Forall (λ c, is_Some (digit_value c)) (list_ascii_of_string s) →
  int_of_str s = parse_digits (list_ascii_of_string s) 0 false.
Proof.
  intros Hne Hdigits. unfold int_of_str.
  rewrite strip_with_no_space
    by (eapply Forall_impl; [done|]; apply digit_not_space).
  destruct (list_ascii_of_string s) as [|c cs]; [done|].
  apply Forall_cons in Hdigits as [Hc%digit_value_range _].
  destruct (Nat.eqb_spec (nat_of_ascii c) 45); [lia|].
  destruct (Nat.eqb_spec (nat_of_ascii c) 43); [lia|done].
Qed.

(** [int(str(n)) == n] *)
Lemma int_of_str_py_str n : int_of_str (py_str n) = Some n.
Proof.
  unfold py_str, pretty, pretty_Z. destruct n as [|x|x]; [done| |].
  - destruct (pretty_N_spec (N.pos x)) as (Hne & Hdigits & Hparse).
    unfold pretty at 1, pretty_positive. by rewrite int_of_str_digits.
  - destruct (pretty_N_spec (N.pos x)) as (Hne & Hdigits & Hparse).
    unfold int_of_str, pretty at 1, pretty_positive.
    change (list_ascii_of_string ("-" +:+ pretty (N.pos x)))
      with ("-"%char :: list_ascii_of_string (pretty (N.pos x))).
    rewrite strip_with_no_space.
    + simpl. rewrite Hparse. done.
    + constructor; [done|]. eapply Forall_impl; [done|]. apply digit_not_space.
Qed.

Lemma matches_int_py_str n : matches_int (py_str n) = true ↔ 0 ≤ n.
Proof.
  unfold matches_int, py_str, pretty, pretty_Z. rewrite bool_decide_eq_true.
  destruct n as [|x|x].
  - split; [done|]. intros _. split; [done|]. by repeat constructor.
  - destruct (pretty_N_spec (N.pos x)) as (Hne & Hdigits & _).
    split; [lia|]. intros _. done.
  - split; [|lia]. intros [_ Hdigits].
    change (list_ascii_of_string ("-" +:+ pretty x))
      with ("-"%char :: list_ascii_of_string (pretty x)) in Hdigits.
    apply Forall_cons in Hdigits as [[d Hd] _]. done.
Qed.

(** * Comments and the detail view *)


Global Instance created_desc_total : Total created_desc.
Proof.
  intros c d. unfold created_desc.
  destruct (total datetime_le (comment_created c) (comment_created d)); auto.
Qed.

Global Instance created_desc_trans : Transitive created_desc.
Proof. intros c d e Hcd Hde. unfold created_desc in *. by etrans. Qed.

(** X1. The comments shown for a post are exactly its active comments
    (with their multiplicity), the newest first. *)
Theorem active_comments_newest_first db self :
  let shown := get_active_comments db self in
  (∀ c, c ∈ shown ↔
        c ∈ comments db ∧ comment_post c = id self ∧ comment_active c = true) ∧
  shown ≡ₚ
    filter (λ c, comment_post c = id self ∧ comment_active c = true) (comments db) ∧
  StronglySorted created_desc shown.
Proof.
  intros shown. unfold shown, get_active_comments. split_and!.
  - intros c. rewrite merge_sort_Permutation, list_elem_of_filter. tauto.
  - apply merge_sort_Permutation.
  - apply StronglySorted_merge_sort; apply _.
Qed.

(** X2. The detail view never writes: whatever the request, the store
    is left as it was and no message is added, so in particular the
    success message of a comment is never shown. *)
Theorem post_detail_never_writes validate_email now now' db request
    year month day slug_ :
  out_db (post_detail validate_email now now' db request year month day slug_) = db ∧
  out_messages (post_detail validate_email now now' db request year month day slug_) = [].
Proof.
  unfold post_detail. destruct (detail_lookup _ _ _ _ _ _); [|done].
  destruct (String.eqb _ _); [|done]. by destruct (CommentForm_is_valid _ _).
Qed.

(** X3. For a year of the path that is not a year (0, 10000, ...),
    the detail view fails with the error of the date constructor while
    the query is built. For a year in 1..9999 it answers "not found"
    exactly when no post with the slug and the day of the path is
    published yet: a post dated in the future is as absent as one that
    does not exist. *)
Theorem post_detail_not_found validate_email now now' db request
    year month day slug_ :
  (¬ (1 ≤ year ≤ 9999) →
   ∃ e,
     out_response
       (post_detail validate_email now now' db request year month day slug_) =
       Raise e ∧
     (e = ValueError ∨ e = OverflowError) ∧
     (fits_C_int year = true → e = ValueError)) ∧
  (1 ≤ year ≤ 9999 →
   (out_response
      (post_detail validate_email now now' db request year month day slug_) =
      Raise (Http404 "No Post matches the given query.") ↔
    ∀ p, p ∈ posts db →
         slug p = slug_ → dt_year (publish p) = year →
         dt_month (publish p) = month → dt_day (publish p) = day →
         ¬ datetime_le (publish p) now)).
Proof.
  split.
  - intros Hyear. unfold post_detail.
    rewrite detail_lookup_out_of_range by done. exists (date_error year 1).
    split_and!; [done|apply date_error_cases|].
    intros Hfits. unfold date_error. by rewrite Hfits.
  - intros Hyear. unfold post_detail. rewrite detail_lookup_in_range by done.
    set (P := λ p : Post, slug p = slug_ ∧ datetime_le (publish p) now ∧
                dt_year (publish p) = year ∧ dt_month (publish p) = month ∧
                dt_day (publish p) = day).
    assert (filter P (posts db) = [] ↔
            ∀ p, p ∈ posts db →
                 slug p = slug_ → dt_year (publish p) = year →
                 dt_month (publish p) = month → dt_day (publish p) = day →
                 ¬ datetime_le (publish p) now) as <-.
    { rewrite filter_nil_Forall, Forall_forall. unfold P. naive_solver. }
    destruct (filter P (posts db)) as [|p [|q l]]; simpl; [done| |done].
    destruct (String.eqb _ _); [|done]. by destruct (CommentForm_is_valid _ _).
Qed.

(** * More on similar posts *)

Lemma group_by_id_NoDup rows : NoDup (id <$> group_by_id rows).
Proof.
  induction rows as [|p rows IH]; simpl; [constructor|].
  rewrite NoDup_cons. split.
  - intros (q & Hq & [Hne _]%list_elem_of_filter)%list_elem_of_fmap. congruence.
  - induction (group_by_id rows) as [|q l IHl]; [constructor|].
    rewrite fmap_cons, NoDup_cons in IH. destruct IH as [Hq Hl].
    rewrite filter_cons. case_decide; [|by apply IHl].
    rewrite fmap_cons, NoDup_cons. split; [|by apply IHl].
    intros (r & Hr & [_ Hin]%list_elem_of_filter)%list_elem_of_fmap.
    apply Hq, list_elem_of_fmap. eauto.
Qed.

(** X4. A post is listed at most once among the similar posts, however
    many tags it shares with the reference post: no two entries have
    the same id. *)
Theorem similar_posts_distinct now db self :
  NoDup ((λ entry, id entry.1) <$> get_similar_posts now db self).
Proof.
  unfold get_similar_posts.
  set (rows := exclude_id _ _).
  eapply sublist_NoDup; [|apply fmap_sublist, sublist_take].
  rewrite merge_sort_Permutation. unfold annotate_Count_tags.
  rewrite <- list_fmap_compose. apply group_by_id_NoDup.
Qed.

(** X5. A post without tags has no similar posts. *)
Theorem similar_posts_of_untagged now db self :
  (∀ ti, ti ∈ tagged_items db → object_id ti ≠ id self) →
  get_similar_posts now db self = [].
Proof.
  intros Hnone. unfold get_similar_posts.
  assert (post_tags_ids db self = []) as ->.
  { unfold post_tags_ids.
    replace (filter _ (tagged_items db)) with (@nil TaggedItem); [done|].
    symmetry. apply filter_nil_Forall, Forall_forall. auto. }
  assert (∀ qs, filter_tags_in db [] qs = []) as ->; [|done].
  intros qs. unfold filter_tags_in. induction qs as [|p qs IH]; [done|].
  rewrite bind_cons, IH, app_nil_r.
  replace (filter _ (tagged_items db)) with (@nil TaggedItem); [done|].
  symmetry. apply filter_nil_Forall, Forall_forall.
  intros ti _ [_ Hin]. by apply elem_of_nil in Hin.
Qed.

Lemma similar_posts_of_untagged_witness :
  get_similar_posts sample_now sample_db some_post = [].
Proof.
  apply (similar_posts_of_untagged sample_now sample_db some_post).
  apply Forall_forall. by_evaluation.
Defined.

(** * Links to posts *)

Lemma IntConverter_py_str n : 0 ≤ n → IntConverter (py_str n) = Some n.
Proof.
  intros Hn%matches_int_py_str. unfold IntConverter.
  unfold matches_int in Hn. rewrite Hn. apply int_of_str_py_str.
Qed.

Lemma SlugConverter_matches s : matches_slug s = true → SlugConverter s = Some s.
Proof. unfold matches_slug, SlugConverter. by intros ->. Qed.

Lemma reverse_post_detail_Some year month day post path :
  reverse_post_detail year month day post = Some path ↔
  (0 ≤ year ∧ 0 ≤ month ∧ 0 ≤ day ∧ matches_slug post = true) ∧
  path = [py_str year; py_str month; py_str day; post].
Proof.
  unfold reverse_post_detail.
  destruct (matches_int (py_str year)) eqn:Hy, (matches_int (py_str month)) eqn:Hm,
    (matches_int (py_str day)) eqn:Hd, (matches_slug post) eqn:Hs; simpl;
    rewrite <- ?matches_int_py_str, ?Hy, ?Hm, ?Hd; naive_solver.
Qed.

Lemma get_absolute_url_routed self path :
  get_absolute_url self = Some path →
  urlpatterns path =
  Some (call_post_detail (dt_year (publish self)) (dt_month (publish self))
          (dt_day (publish self)) (slug self)).
Proof.
  unfold get_absolute_url. intros (Hok & ->)%reverse_post_detail_Some.
  destruct Hok as (Hy & Hm & Hd & Hs). unfold urlpatterns.
  rewrite !IntConverter_py_str, SlugConverter_matches by done. done.
Qed.

(** X6. The link of a post leads back to it: the path [get_absolute_url]
    builds is routed by [urlpatterns] to the detail view with the year,
    month, day and slug of the post. The path exists exactly when no
    date field is negative and the slug is made of slug characters. *)
Theorem absolute_url_round_trip self :
  let year := dt_year (publish self) in
  let month := dt_month (publish self) in
  let day := dt_day (publish self) in
  (is_Some (get_absolute_url self) ↔
   0 ≤ year ∧ 0 ≤ month ∧ 0 ≤ day ∧ matches_slug (slug self) = true) ∧
  (∀ path,
     get_absolute_url self = Some path →
     urlpatterns path = Some (call_post_detail year month day (slug self))).
Proof.
  intros year month day. unfold get_absolute_url. fold year month day. split.
  - split.
    + intros [path Hpath]. apply reverse_post_detail_Some in Hpath. tauto.
    + intros Hok. eexists. apply reverse_post_detail_Some. eauto.
  - apply get_absolute_url_routed.
Qed.


(** X7. Following the link of a published post shows that post: when
    the post is the only one of its day with its slug, a GET of the
    path of [get_absolute_url] is answered by the detail page of the
    post, with its active comments and its similar posts. The year of
    the post is a year (1..9999), as that of every date is. *)
Theorem absolute_url_shows_post validate_email now now' db request self path :
  NoDup (posts db) →
  self ∈ posts db →
  1 ≤ dt_year (publish self) ≤ 9999 →
  datetime_le (publish self) now →
  (∀ q, q ∈ posts db → slug q = slug self →
        dt_year (publish q) = dt_year (publish self) →
        dt_month (publish q) = dt_month (publish self) →
        dt_day (publish q) = dt_day (publish self) →
        datetime_le (publish q) now → q = self) →
  method request ≠ "POST" →
  get_absolute_url self = Some path →
  ∃ year month day post,
    urlpatterns path = Some (call_post_detail year month day post) ∧
    out_response (post_detail validate_email now now' db request year month day post) =
    Ok (render_detail
          (mk_detail_context self (get_active_comments db self) None
             (mk_SearchForm None) (mk_CommentForm None None)
             (get_similar_posts now' db self))).
Proof.
  intros Hnd Hin Hyear Hpub Huniq Hmethod Hpath.
  pose proof (get_absolute_url_routed self path Hpath) as Hroute.
  do 4 eexists. split; [exact Hroute|].
  unfold post_detail. rewrite detail_lookup_in_range by done.
  rewrite (filter_unique _ _ self); [|done..|].
  - simpl. by rewrite (proj2 (String.eqb_neq _ _) Hmethod).
  - intros q Hq (Hs & Hv & Hy & Hm & Hd). by apply Huniq.
Qed.

(** * The template tags *)

(** X8. [show_latest_posts] fails on a negative count and on a count
    that is not a 64-bit integer. Otherwise it shows the [count] newest
    published posts, or all of them when there are fewer, the newest
    first: no published post left out is newer than a post shown. *)
Theorem latest_posts_are_latest now db count :
  (count < 0 ∨ 2 ^ 63 ≤ count → show_latest_posts now db count = None) ∧
  (0 ≤ count < 2 ^ 63 →
   ∃ latest rest,
     show_latest_posts now db count = Some latest ∧
     latest ++ rest ≡ₚ filter (λ p, datetime_le (publish p) now) (posts db) ∧
     length latest = (Z.to_nat count `min` length (latest ++ rest))%nat ∧
     StronglySorted publish_desc latest ∧
     ∀ p q, p ∈ latest → q ∈ rest → datetime_le (publish q) (publish p)).
Proof.
  unfold show_latest_posts. split.
  - intros Hcount.
    destruct (Z.ltb_spec count 0); [done|].
    destruct (Z.leb_spec (2 ^ 63) count); [done|lia].
  - intros Hcount. destruct (Z.ltb_spec count 0); [lia|].
    destruct (Z.leb_spec (2 ^ 63) count); [lia|].
    set (ordered := merge_sort publish_desc (PublishedManager_get_queryset now db)).
    assert (StronglySorted publish_desc ordered) as Hsorted
      by (apply StronglySorted_merge_sort; apply _).
    exists (take (Z.to_nat count) ordered), (drop (Z.to_nat count) ordered).
    rewrite take_drop. split_and!.
    + done.
    + unfold ordered, PublishedManager_get_queryset.
      by rewrite !merge_sort_Permutation.
    + apply length_take.
    + by apply StronglySorted_take.
    + intros p q Hp Hq. rewrite <- (take_drop (Z.to_nat count) ordered) in Hsorted.
      apply (StronglySorted_app_1_elem_of _ _ _ p q Hsorted Hp Hq).
Qed.

Global Instance date_desc_total : Total date_desc.
Proof. intros a b. unfold date_desc. lia. Qed.

Global Instance date_desc_trans : Transitive date_desc.
Proof. intros a b c. unfold date_desc. lia. Qed.

(** X9. [show_archives] lists the months in which a post is published
    by now, each once, as the first day of the month and the latest
    month first; months that only hold posts dated in the future are
    not listed. *)
Theorem archives_are_the_published_months now db :
  let dates := show_archives now db in
  (∀ d, d ∈ dates ↔
        ∃ p, p ∈ posts db ∧ datetime_le (publish p) now ∧
             d = mk_date (dt_year (publish p)) (dt_month (publish p)) 1) ∧
  NoDup dates ∧
  StronglySorted date_desc dates.
Proof.
  intros dates. unfold dates, show_archives. split_and!.
  - intros d.
    rewrite merge_sort_Permutation, elem_of_remove_dups, list_elem_of_fmap.
    setoid_rewrite elem_of_published. unfold trunc_month. naive_solver.
  - rewrite merge_sort_Permutation. apply NoDup_remove_dups.
  - apply StronglySorted_merge_sort; apply _.
Qed.

Example show_archives_sample :
  show_archives sample_now sample_db =
  [mk_date 2020 9 1; mk_date 2020 8 1; mk_date 2020 3 1].
Proof. by vm_compute. Qed.

Example show_latest_posts_sample :
  show_latest_posts sample_now sample_db 2 = Some [sample_post; similar_post].
Proof. by vm_compute. Qed.

Example show_latest_posts_negative :
  show_latest_posts sample_now sample_db (-1) = None.
Proof. by vm_compute. Qed.

Example show_latest_posts_beyond_bigint :
  show_latest_posts sample_now sample_db (2 ^ 63) = None.
Proof. by vm_compute. Qed.

(** * More on the listing *)

Lemma StronglySorted_sublist {A} (R : relation A) (l1 l2 : list A) :
  l1 `sublist_of` l2 → StronglySorted R l2 → StronglySorted R l1.
Proof.
  induction 1 as [|x l1 l2 Hsub IH|x l1 l2 Hsub IH]; intros Hs; [done|..].
  - apply StronglySorted_cons in Hs as [Hx Hs].
    apply StronglySorted_cons. split; [|by apply IH].
    rewrite Forall_forall in Hx. apply Forall_forall. intros y Hy.
    by apply Hx, (sublist_subseteq _ _ Hsub).
  - apply StronglySorted_cons in Hs as [_ Hs]. by apply IH.
Qed.

Lemma StronglySorted_copies {A} (R : relation A) `{!Reflexive R} (x : A) (l : list A) :
  Forall (λ y, y = x) l → StronglySorted R l.
Proof.
  induction 1 as [|y l -> Hl IH]; [constructor|].
  apply StronglySorted_cons. split; [|done].
  eapply Forall_impl; [done|]. by intros y ->.
Qed.

Global Instance publish_desc_refl : Reflexive publish_desc.
Proof. intros p. by destruct (total publish_desc p p). Qed.

Lemma filter_tags_in_sorted db ids qs :
  StronglySorted publish_desc qs →
  StronglySorted publish_desc (filter_tags_in db ids qs).
Proof.
  unfold filter_tags_in. induction 1 as [|p qs Hqs IH Hp]; [constructor|].
  rewrite bind_cons. apply StronglySorted_app. split_and!; [| |done].
  2:{ apply (StronglySorted_copies _ p), Forall_forall.
      by intros x (ti & -> & _)%list_elem_of_fmap. }
  intros x y (ti & -> & _)%list_elem_of_fmap Hy.
  apply list_elem_of_bind in Hy as (q & (ti' & -> & _)%list_elem_of_fmap & Hq).
  rewrite Forall_forall in Hp. by apply Hp.
Qed.

Lemma published_sorted now db :
  StronglySorted publish_desc (PublishedManager_get_queryset now db).
Proof. apply StronglySorted_merge_sort; apply _. Qed.

Lemma base_filter_sorted now db tag_slug year month qs date tag :
  base_filter now db tag_slug year month = Ok (qs, date, tag) →
  StronglySorted publish_desc qs.
Proof.
  pose proof (published_sorted now db) as Hsorted. unfold base_filter.
  destruct (truthy_int year && truthy_int month).
  - destruct (datetime_new _ _ _); [|done]. simpl. intros [= <- _ _].
    eapply StronglySorted_sublist; [apply sublist_filter|done].
  - destruct (truthy_str tag_slug).
    + destruct (get_object_or_404 _ _); [|done]. simpl. intros [= <- _ _].
      by apply filter_tags_in_sorted.
    + by intros [= <- _ _].
Qed.

(** What an answered listing shows is nothing or a page of the posts
    selected by its first two stages. *)
Lemma post_list_Ok_page TrigramSimilarity now db request tag_slug year month response :
  post_list TrigramSimilarity now db request tag_slug year month = Ok response →
  ∃ qs0 date tag qs query form,
    base_filter now db tag_slug year month = Ok (qs0, date, tag) ∧
    query_filter TrigramSimilarity request qs0 = Ok (qs, query, form) ∧
    (response_posts response = [] ∨
     ∃ n, 1 ≤ n ∧ response_posts response = page_items qs n).
Proof.
  intros Hresponse.
  destruct (base_filter now db tag_slug year month) as [[[qs0 date] tag]|e] eqn:Hbase;
    [|by rewrite (post_list_base_raise _ _ _ _ _ _ _ _ Hbase) in Hresponse].
  destruct (query_filter TrigramSimilarity request qs0)
    as [[[qs query] form]|e] eqn:Hquery;
    [|by rewrite (post_list_query_raise _ _ _ _ _ _ _ _ _ _ _ Hbase Hquery)
        in Hresponse].
  exists qs0, date, tag, qs, query, form. split_and!; [done..|].
  rewrite (post_list_stages _ _ _ _ _ _ _ _ _ _ _ _ _ Hbase Hquery) in Hresponse.
  destruct (paginate_total qs request) as [[_ Hp]|(n & Hn & Hp)];
    rewrite Hp in Hresponse.
  - injection Hresponse as <-. by left.
  - right. exists n. split; [lia|].
    destruct (is_ajax request); by injection Hresponse as <-.
Qed.

(** X10. A listing never shows more than 4 posts, whatever the filter,
    the query and the page asked for. *)
Theorem listing_shows_at_most_four TrigramSimilarity now db request tag_slug
    year month response :
  post_list TrigramSimilarity now db request tag_slug year month = Ok response →
  (length (response_posts response) ≤ 4)%nat.
Proof.
  intros (qs0 & date & tag & qs & query & form & _ & _ & Hpage)%post_list_Ok_page.
  destruct Hpage as [->|(n & _ & ->)]; [simpl; lia|apply page_items_length].
Qed.

Lemma listing_shows_at_most_four_witness :
  (length [sample_post; similar_post; more_similar_post; some_post] ≤ 4)%nat.
Proof.
  apply (listing_shows_at_most_four sample_similarity sample_now sample_db
           (get_request []) None None None
           (render_list
              (mk_list_context None None
                 (nth_page (PublishedManager_get_queryset sample_now sample_db) 1)
                 None (mk_SearchForm None) 5))).
  by vm_compute.
Defined.

(** X11. Without a search, the posts of a listing are shown in
    descending order of publish time, whichever base filter applies. *)
Theorem listing_newest_first TrigramSimilarity now db request tag_slug
    year month response :
  QueryDict_contains "query" (GET request) = false →
  post_list TrigramSimilarity now db request tag_slug year month = Ok response →
  StronglySorted publish_desc (response_posts response).
Proof.
  intros Hq (qs0 & date & tag & qs & query & form & Hbase & Hquery & Hpage)
    %post_list_Ok_page.
  unfold query_filter in Hquery. rewrite Hq in Hquery. injection Hquery as <- _ _.
  destruct Hpage as [->|(n & _ & ->)]; [constructor|].
  eapply StronglySorted_sublist; [|by eapply base_filter_sorted].
  unfold page_items. etrans; [apply sublist_take|apply sublist_drop].
Qed.

Lemma listing_newest_first_witness :
  StronglySorted publish_desc [sample_post; more_similar_post; march_post].
Proof.
  apply (listing_newest_first sample_similarity sample_now sample_db
           (get_request []) (Some "bar") None None
           (render_list
              (mk_list_context (Some bar) None
                 (nth_page
                    (filter_tags_in sample_db [2%nat]
                       (PublishedManager_get_queryset sample_now sample_db)) 1)
                 None (mk_SearchForm None) 3)));
    by vm_compute.
Defined.

(** X12. Every post of a listing can be reached by its page number: the
    post at position [i] (from 0) of the sequence is shown, at position
    [i mod 4], by the request for page [i / 4 + 1] written in decimal,
    and that page is never out of range. *)
Theorem every_post_has_a_page request qs (i : nat) x :
  qs !! i = Some x →
  QueryDict_get "page" (GET request) = Some (py_str (Z.of_nat (i `div` 4) + 1)) →
  ∃ shown,
    paginate request qs = Ok (inr shown) ∧
    number shown = Z.of_nat (i `div` 4) + 1 ∧
    page_object_list shown !! (i `mod` 4)%nat = Some x.
Proof.
  intros Hx Htoken.
  pose proof (lookup_lt_Some _ _ _ Hx) as Hlt.
  pose proof (Nat.div_mod_eq i 4) as Hdiv.
  assert (i `mod` 4 < 4)%nat as Hmod by (by apply Nat.mod_upper_bound).
  revert Htoken Hdiv Hmod.
  generalize (i `div` 4)%nat (i `mod` 4)%nat. intros q r Htoken Hdiv Hmod.
  set (n := Z.of_nat q + 1) in *.
  assert (1 ≤ n ≤ num_pages (mk_Paginator qs 4)) as Hn.
  { split; [lia|]. apply num_pages_spec; lia. }
  exists (nth_page qs n). split_and!; [|done|].
  - eapply paginate_in_range; [done|apply int_of_str_py_str|done].
  - simpl. unfold page_items. rewrite lookup_take_lt, lookup_drop by lia.
    rewrite <- Hx. f_equal. lia.
Qed.

Lemma every_post_has_a_page_witness :
  ∃ shown,
    paginate (get_request [("page", "2")])
      (PublishedManager_get_queryset sample_now sample_db) = Ok (inr shown) ∧
    number shown = 2 ∧
    page_object_list shown !! 0%nat = Some march_post.
Proof.
  apply (every_post_has_a_page (get_request [("page", "2")])
           (PublishedManager_get_queryset sample_now sample_db) 4 march_post);
    by vm_compute.
Defined.




(** * Saving a comment form *)


(** [CommentForm(post=post).save()]: nothing was submitted, nothing is
    checked, and an empty comment is stored. *)
Example CommentForm_save_unbound_sample :
  snd <$> CommentForm_save sample_validate_email sample_now
            (mk_CommentForm None (Some sample_post)) sample_db =
  Ok (mk_Comment (id sample_post) "" "" "" sample_now true).
Proof. by vm_compute. Qed.

(** [CommentForm(post={}).save()]: the instance cannot be bound to [{}]. *)
Example CommentForm_save_no_post_sample :
  snd <$> CommentForm_save sample_validate_email sample_now
            (mk_CommentForm None None) sample_db =
  Raise ValueError.
Proof. by vm_compute. Qed.

(** * The arguments the routes pass *)

Lemma parse_digits_nonneg cs acc prev n :
  parse_digits cs acc prev = Some n → 0 ≤ acc → 0 ≤ n.
Proof.
  revert acc prev. induction cs as [|c cs IH]; intros acc prev; simpl.
  - destruct prev; [|done]. by intros [= <-].
  - destruct (digit_value c) as [d|] eqn:Hd.
    + intros Hn Hacc. apply (IH _ _ Hn).
      unfold digit_value in Hd.
      destruct (Nat.leb_spec 48 (nat_of_ascii c)); simpl in Hd; [|done].
      destruct (_ <=? _)%nat; [|done]. injection Hd as <-. lia.
    + destruct (_ && _); [|done]. apply IH.
Qed.

Lemma IntConverter_nonneg s n : IntConverter s = Some n → 0 ≤ n.
Proof.
  unfold IntConverter. case_bool_decide as Hs; [|done]. destruct Hs as [Hne Hdigits].
  rewrite int_of_str_digits by done. intros Hn. by eapply parse_digits_nonneg.
Qed.

Lemma SlugConverter_nonempty s s' : SlugConverter s = Some s' → s' ≠ "".
Proof.
  unfold SlugConverter. case_bool_decide as Hs; [|done]. destruct Hs as [Hne _].
  intros [= <-] ->. done.
Qed.

(** X15. What the routes hand to the views: a listing gets a tag slug or
    a year and a month, never both and never a year without a month; the
    slug is not empty, and no year, month or day is negative. *)
Theorem urlpatterns_arguments path :
  match urlpatterns path with
  | Some (call_post_list tag_slug year month) =>
      (tag_slug = None ∨ (year = None ∧ month = None)) ∧
      (is_Some year ↔ is_Some month) ∧
      (∀ s, tag_slug = Some s → s ≠ "") ∧
      (∀ y, year = Some y → 0 ≤ y) ∧ (∀ m, month = Some m → 0 ≤ m)
  | Some (call_post_detail year month day post) =>
      0 ≤ year ∧ 0 ≤ month ∧ 0 ≤ day ∧ post ≠ ""
  | None => True
  end.
Proof.
  unfold urlpatterns.
  destruct path as [|a [|b [|c [|d [|e path]]]]]; try done.
  - split_and!; [by left| |done..]. by split; intros [? ?].
  - destruct (String.eqb a "tag"); [|done].
    destruct (SlugConverter b) as [s|] eqn:Hs; [|done]. simpl.
    split_and!; [by right| | |done..].
    + by split; intros [? ?].
    + intros ? [= <-]. by eapply SlugConverter_nonempty.
  - destruct (String.eqb a "archive"); [|done].
    destruct (IntConverter b) as [y|] eqn:Hy; [|done]. simpl.
    destruct (IntConverter c) as [m|] eqn:Hm; [|done]. simpl.
    split_and!; [by left| |done| |].
    + by split.
    + intros ? [= <-]. by eapply IntConverter_nonneg.
    + intros ? [= <-]. by eapply IntConverter_nonneg.
  - destruct (IntConverter a) as [y|] eqn:Hy; [|done]. simpl.
    destruct (IntConverter b) as [m|] eqn:Hm; [|done]. simpl.
    destruct (IntConverter c) as [dd|] eqn:Hd; [|done]. simpl.
    destruct (SlugConverter d) as [s|] eqn:Hs; [|done]. simpl.
    split_and!; eauto using IntConverter_nonneg, SlugConverter_nonempty.
Qed.

Lemma absolute_url_shows_post_witness :
  ∃ year month day post,
    urlpatterns ["2020"; "9"; "5"; "post"] =
      Some (call_post_detail year month day post) ∧
    out_response
      (post_detail sample_validate_email sample_now sample_now sample_db
         (get_request []) year month day post) =
    Ok (render_detail
          (mk_detail_context sample_post (get_active_comments sample_db sample_post)
             None (mk_SearchForm None) (mk_CommentForm None None)
             (get_similar_posts sample_now sample_db sample_post))).
Proof.
  apply (absolute_url_shows_post sample_validate_email sample_now sample_now
           sample_db (get_request []) sample_post ["2020"; "9"; "5"; "post"]).
  - by_evaluation.
  - by_evaluation.
  - by_evaluation.
  - by_evaluation.
  - intros q Hq Hslug _ _ _ _. unfold sample_db in Hq. simpl in Hq.
    repeat (apply elem_of_cons in Hq as [->|Hq]);
      try done; try (by vm_compute in Hslug).
    by apply elem_of_nil in Hq.
  - done.
  - by vm_compute.
Defined.

(** * The fields of a comment *)



